(** * climate-simulator: the simulation model and the session logic of app.py

    The development embeds [src/app.py]:
    - [simulate] (lines 15-42), the closed-form model, over the real numbers;
    - the Streamlit session state (a Python dict) as a [gmap string value],
      with the handlers of the sidebar buttons, the mode branch, the
      challenge status block and the scenario comparison block as functions
      on that map.

    Numbers.  The sliders deliver Python ints, modelled by [Z].  The model
    computes in IEEE doubles through numpy; here every float is a real
    number of [R], with [exp] and [ln] the real functions, so the theorems
    are about the formulas of the code, not about their rounding.  [ln] and
    [/] of the Standard Library are total ([ln x = 0] for [x <= 0],
    [x / 0 = 0]); they agree with the code wherever the code does not
    produce [nan] or [inf], in particular on the whole slider domain. *)

From stdpp Require Import gmap strings list.
From Stdlib Require Import ZArith Reals Lra Lia.

(** ** Model (app.py, lines 12-42) *)

(** [np.arange(n)] for an integer [n]: the integers 0, 1, ..., n-1, and the
    empty array when [n <= 0]. *)
Definition arange (n : Z) : list Z := Z.of_nat <$> seq 0 (Z.to_nat n).

(** The [pd.DataFrame] built by [simulate]: four columns of equal length. *)
Record DataFrame := mkDataFrame {
  year : list Z;
  temp_anomaly_C : list R;
  flood_risk : list R;
  drought_risk : list R
}.

Section Model.
Local Open Scope R_scope.

(** [simulate], statement by statement; numpy's element-wise operations on an
    array are [fmap] over the list. *)
Definition simulate
    (years co2_ppm rainfall_change_pct green_infra_pct urbanization_pct : Z)
    : DataFrame :=
  let t := arange (years + 1) in
  let temp_anom := 1.2 * ln (IZR co2_ppm / 280) in
  let temp_series := (fun ti => temp_anom * (1 - exp (- IZR ti / 25))) <$> t in
  let rainfall_factor := 1 + IZR rainfall_change_pct / 100.0 in
  let impervious := IZR urbanization_pct / 100.0 in
  let green := IZR green_infra_pct / 100.0 in
  let runoff_index :=
    rainfall_factor * (0.6 + 1.2 * impervious) * (1 - 0.55 * green) in
  let runoff_series := (fun ts => runoff_index * (1 + 0.08 * ts)) <$> temp_series in
  let flood_risk := (fun rs => 100 * (1 - exp (-0.9 * rs))) <$> runoff_series in
  let evap := (fun ts => 1 + 0.18 * ts) <$> temp_series in
  let drought_index :=
    (fun ev => (ev / rainfall_factor) * (1 - 0.15 * green)) <$> evap in
  let drought_risk := (fun di => 100 * (1 - exp (-0.8 * di))) <$> drought_index in
  {| year := (fun ti => (2025 + ti)%Z) <$> t;
     temp_anomaly_C := temp_series;
     flood_risk := flood_risk;
     drought_risk := drought_risk |}.

End Model.

Arguments simulate : simpl never.

(** The slider ranges of the sidebar (lines 186-198): the input domain. *)
Definition in_domain
    (years co2_ppm rainfall_change_pct green_infra_pct urbanization_pct : Z)
    : Prop :=
  (20 <= years <= 120)%Z /\ (280 <= co2_ppm <= 900)%Z /\
  (-30 <= rainfall_change_pct <= 50)%Z /\
  (0 <= green_infra_pct <= 100)%Z /\ (0 <= urbanization_pct <= 100)%Z.

(** One row of a data frame, [df.iloc[i]]. *)
Record Row := mkRow {
  r_year : Z; r_temp : R; r_flood : R; r_drought : R
}.

Definition iloc (df : DataFrame) (i : nat) : option Row :=
  match year df !! i, temp_anomaly_C df !! i,
        flood_risk df !! i, drought_risk df !! i with
  | Some y, Some t, Some f, Some d => Some (mkRow y t f d)
  | _, _, _, _ => None
  end.

(** ** Session state (app.py, lines 45-94)

    [st.session_state] is a Python dict from widget keys to values.  A value
    is [None], a bool, an int, a str, or a scenario snapshot (the dict built
    by [snapshot_current]). *)

Record Params (V : Type) := mkParams {
  p_mode : V;
  p_years : Z;
  p_co2_ppm : Z;
  p_rainfall_change_pct : Z;
  p_green_infra_pct : Z;
  p_urbanization_pct : Z
}.
Arguments mkParams {V} _ _ _ _ _ _.

#[local] Set Warnings "-register-all".
Inductive value :=
| VNone
| VBool (b : bool)
| VInt (n : Z)
| VStr (s : string)
| VScenario (params : Params value) (df : DataFrame).

Abbreviation session := (gmap string value).

(** Python truthiness, as used by [if x:] and [not x]. *)
Definition truthy (v : value) : bool :=
  match v with
  | VNone => false
  | VBool b => b
  | VInt n => negb (n =? 0)%Z
  | VStr s => negb (String.eqb s EmptyString)
  | VScenario _ _ => true
  end.

(** [d.get(k, dflt)] and [d.get(k)]. *)
Definition get (s : session) (k : string) (dflt : value) : value :=
  default dflt (s !! k).

Definition get_none (s : session) (k : string) : value := get s k VNone.

(** [d.update(items)] and the loop [for k, v in items: d[k] = v]. *)
Definition update (s : session) (items : list (string * value)) : session :=
  foldl (fun st kv => <[kv.1 := kv.2]> st) s items.

(** The number a session entry stands for where the code does arithmetic on
    it or applies [int(...)]: an int, or a bool (a Python bool is an int);
    anything else the application never stores under a slider key, and the
    arithmetic of [simulate] raises [TypeError] on it. *)
Definition as_int (v : value) : option Z :=
  match v with
  | VInt n => Some n
  | VBool b => Some (Z.b2z b)
  | _ => None
  end.

Definition DEFAULTS : list (string * value) :=
  [ ("mode", VStr "Standard");
    ("years", VInt 80);
    ("co2_ppm", VInt 450);
    ("rainfall_change_pct", VInt 10);
    ("green_infra_pct", VInt 20);
    ("urbanization_pct", VInt 40);
    ("challenge_on", VBool false);
    ("challenge_won", VBool false);
    ("difficulty_choice", VStr "Medium");
    ("compare_on", VBool false);
    ("scenario_A", VNone);
    ("scenario_B", VNone) ].

(** Each difficulty maps to its pair [(target_flood, target_drought)]. *)
Definition DIFFICULTY_TARGETS : gmap string (Z * Z) :=
  list_to_map
    [ ("Easy", (55, 55)%Z); ("Medium", (40, 40)%Z); ("Hard", (30, 30)%Z) ].

(** Lines 72-74: every default whose key is missing is installed. *)
Definition seed_defaults (s : session) : session :=
  foldl (fun st kv =>
           match st !! kv.1 with
           | None => <[kv.1 := kv.2]> st
           | Some _ => st
           end) s DEFAULTS.

(** [snapshot_current(df)], lines 77-87.  [None] stands for the [KeyError]
    of a missing key and the [TypeError] of [int] on a non-number. *)
Definition snapshot_current (s : session) (df : DataFrame) : option value :=
  mode ← s !! "mode";
  years ← s !! "years" ≫= as_int;
  co2_ppm ← s !! "co2_ppm" ≫= as_int;
  rainfall_change_pct ← s !! "rainfall_change_pct" ≫= as_int;
  green_infra_pct ← s !! "green_infra_pct" ≫= as_int;
  urbanization_pct ← s !! "urbanization_pct" ≫= as_int;
  Some (VScenario
          (mkParams mode years co2_ppm rainfall_change_pct green_infra_pct
                    urbanization_pct)
          df).

(** ** What a pass of the script shows

    Only the elements the session logic decides are kept; titles, captions,
    dividers and the matplotlib charts are left out.  A metric carries the
    number the code formats (the f-string formats are not modelled). *)
Inductive ui :=
| StSuccess (msg : string)
| StError (msg : string)
| StInfo (msg : string)
| StBalloons
| StMetric (label : string) (x : R)
| StDataframe (df : DataFrame).

Definition is_balloons (u : ui) : bool :=
  match u with StBalloons => true | _ => false end.

(** The buttons of the page; [st.button] is true in the pass its click
    starts, for that button only. *)
Inductive button :=
| BtnReset | BtnBusiness | BtnGreen | BtnUrban
| BtnResetChallenge | BtnSaveA | BtnSaveB | BtnClear.

(** ** Sidebar handlers (app.py, lines 108-226) *)

(** Lines 113-131: the twelve keys are popped, then the defaults re-seeded. *)
Definition reset_keys : list string :=
  [ "mode"; "years"; "co2_ppm"; "rainfall_change_pct"; "green_infra_pct";
    "urbanization_pct"; "challenge_on"; "challenge_won"; "difficulty_choice";
    "compare_on"; "scenario_A"; "scenario_B" ].

Definition reset_to_default (s : session) : session :=
  let popped := foldl (fun st key => delete key st) s reset_keys in
  update popped DEFAULTS.

(** Lines 138-178: the dicts passed to [st.session_state.update]. *)
Definition preset_business : list (string * value) :=
  [ ("mode", VStr "Standard"); ("years", VInt 80); ("co2_ppm", VInt 650);
    ("rainfall_change_pct", VInt 10); ("green_infra_pct", VInt 10);
    ("urbanization_pct", VInt 65); ("challenge_won", VBool false) ].

Definition preset_green : list (string * value) :=
  [ ("mode", VStr "Standard"); ("years", VInt 80); ("co2_ppm", VInt 380);
    ("rainfall_change_pct", VInt 5); ("green_infra_pct", VInt 70);
    ("urbanization_pct", VInt 30); ("challenge_won", VBool false) ].

Definition preset_urban : list (string * value) :=
  [ ("mode", VStr "Standard"); ("years", VInt 80); ("co2_ppm", VInt 520);
    ("rainfall_change_pct", VInt 15); ("green_infra_pct", VInt 15);
    ("urbanization_pct", VInt 85); ("challenge_won", VBool false) ].

(** [v == "Kids (simple)"] on a session value. *)
Definition is_kids (v : value) : bool :=
  match v with
  | VStr m => String.eqb m "Kids (simple)"
  | _ => false
  end.

(** Lines 191-198, the mode branch.  The sliders are bound to their keys and
    write nothing during the pass; the only assignment is line 194.  [None]
    is the [KeyError] of [st.session_state["mode"]]. *)
Definition mode_branch (s : session) : option session :=
  mode ← s !! "mode";
  Some (if is_kids mode then <["urbanization_pct" := VInt 45]> s else s).

(** Lines 208-212: the handler of the challenge reset button. *)
Definition reset_challenge (s : session) : session :=
  delete "difficulty_choice" (<["challenge_won" := VBool false]> s).

(** Lines 214-216: the selectbox returns the entry of its key, and the
    targets are looked up in [DIFFICULTY_TARGETS]; [None] is the [KeyError]
    of either lookup.  In [script] the key is always there: it is seeded at
    the top of the pass, so the widget never supplies a default of its
    own. *)
Definition difficulty_targets (s : session) : option (Z * Z) :=
  diff ← s !! "difficulty_choice";
  match diff with
  | VStr d => DIFFICULTY_TARGETS !! d
  | _ => None
  end.

(** ** Main page (app.py, lines 228-442) *)

(** Lines 231-237: [simulate] on the five session entries. *)
Definition run_simulation (s : session) : option DataFrame :=
  years ← s !! "years" ≫= as_int;
  co2_ppm ← s !! "co2_ppm" ≫= as_int;
  rainfall_change_pct ← s !! "rainfall_change_pct" ≫= as_int;
  green_infra_pct ← s !! "green_infra_pct" ≫= as_int;
  urbanization_pct ← s !! "urbanization_pct" ≫= as_int;
  Some (simulate years co2_ppm rainfall_change_pct green_infra_pct
                 urbanization_pct).

(** [x <= y] on floats, as a boolean. *)
Definition Rleb (x y : R) : bool := if Rle_dec x y then true else false.

(** Lines 270-293, the challenge status block: the new session and what is
    shown.  [st.balloons()] is the celebratory effect. *)
Definition challenge_status (s : session) (flood_val drought_val : R)
    (target_flood target_drought : Z) : session * list ui :=
  if truthy (get s "challenge_on" (VBool false)) then
    let flood_ok := Rleb flood_val (IZR target_flood) in
    let drought_ok := Rleb drought_val (IZR target_drought) in
    let boxes :=
      [ if flood_ok then StSuccess "🌊 Flood OK" else StError "🌊 Flood too high";
        if drought_ok then StSuccess "🌵 Drought OK"
        else StError "🌵 Drought too high" ] in
    if flood_ok && drought_ok then
      if negb (truthy (get s "challenge_won" (VBool false))) then
        (<["challenge_won" := VBool true]> s, boxes ++ [StBalloons])
      else (s, boxes)
    else (<["challenge_won" := VBool false]> s, boxes)
  else (s, []).

(** Lines 298-301. *)
Definition top_metrics (temp_val flood_val drought_val : R) : list ui :=
  [ StMetric "End-of-horizon warming (proxy °C)" temp_val;
    StMetric "End-of-horizon flood risk (0–100)" flood_val;
    StMetric "End-of-horizon drought risk (0–100)" drought_val ].

(** [X["df"]] on a session value: only a snapshot has the key. *)
Definition scenario_df (v : value) : option DataFrame :=
  match v with
  | VScenario _ df => Some df
  | _ => None
  end.

Definition incomplete_comparison : ui :=
  StInfo "Save two scenarios (A and B) from the sidebar to compare them here.".

(** Lines 367-380: the comparison of the two slots, once fetched.  [None] is
    an exception ([TypeError] of [X["df"]], [IndexError] of [iloc[-1]]). *)
Definition compare (A B : value) : option (list ui) :=
  if negb (truthy A) || negb (truthy B) then Some [incomplete_comparison]
  else
    dfA ← scenario_df A;
    dfB ← scenario_df B;
    tA ← last (temp_anomaly_C dfA);
    fA ← last (flood_risk dfA);
    dA ← last (drought_risk dfA);
    tB ← last (temp_anomaly_C dfB);
    fB ← last (flood_risk dfB);
    dB ← last (drought_risk dfB);
    Some [ StMetric "Δ Warming (A → B)" (tB - tA);
           StMetric "Δ Flood risk (A → B)" (fB - fA);
           StMetric "Δ Drought risk (A → B)" (dB - dA) ].

(** Lines 360-380, the scenario comparison block of the main page. *)
Definition scenario_comparison (s : session) : option (list ui) :=
  if truthy (get s "compare_on" (VBool false)) then
    compare (get_none s "scenario_A") (get_none s "scenario_B")
  else Some [].

(** ** One pass of the script

    Streamlit runs the script top to bottom on every interaction; [click] is
    the button that started the pass, if any.  [st.rerun()] ends the pass at
    once ([Rerun]); otherwise the pass reaches the end of the page ([Done]).
    [None] is a pass that dies in an exception. *)
Inductive outcome :=
| Rerun (s : session)
| Done (s : session) (out : list ui).

Global Instance button_eq_dec : EqDecision button.
Proof. solve_decision. Defined.

Definition clicked (click : option button) (b : button) : bool :=
  bool_decide (click = Some b).

Definition script (click : option button) (s0 : session) : option outcome :=
  let s := seed_defaults s0 in
  if clicked click BtnReset then Some (Rerun (reset_to_default s))
  else if clicked click BtnBusiness then Some (Rerun (update s preset_business))
  else if clicked click BtnGreen then Some (Rerun (update s preset_green))
  else if clicked click BtnUrban then Some (Rerun (update s preset_urban))
  else
    s ← mode_branch s;
    if clicked click BtnResetChallenge then Some (Rerun (reset_challenge s))
    else
      targets ← difficulty_targets s;
      df ← run_simulation s;
      flood_val ← last (flood_risk df);
      drought_val ← last (drought_risk df);
      temp_val ← last (temp_anomaly_C df);
      let compare_on := truthy (get s "compare_on" (VBool false)) in
      if compare_on && clicked click BtnSaveA then
        snap ← snapshot_current s df;
        Some (Rerun (<["scenario_A" := snap]> s))
      else if compare_on && clicked click BtnSaveB then
        snap ← snapshot_current s df;
        Some (Rerun (<["scenario_B" := snap]> s))
      else if compare_on && clicked click BtnClear then
        Some (Rerun (<["scenario_B" := VNone]> (<["scenario_A" := VNone]> s)))
      else
        let (s', boxes) :=
          challenge_status s flood_val drought_val targets.1 targets.2 in
        cmp ← scenario_comparison s';
        Some (Done s' (boxes ++ top_metrics temp_val flood_val drought_val
                             ++ cmp ++ [StDataframe df])).

(** A click and the rerun it causes. *)
Definition interaction (click : option button) (s : session) : option outcome :=
  match script click s with
  | Some (Rerun s') => script None s'
  | r => r
  end.

(** ** Reading a session

    The views of the session that the statements below use. *)

(** The five parameter entries hold the given ints. *)
Definition holds_parameters (s : session)
    (years co2_ppm rainfall_change_pct green_infra_pct urbanization_pct : Z)
    : Prop :=
  s !! "years" = Some (VInt years) /\
  s !! "co2_ppm" = Some (VInt co2_ppm) /\
  s !! "rainfall_change_pct" = Some (VInt rainfall_change_pct) /\
  s !! "green_infra_pct" = Some (VInt green_infra_pct) /\
  s !! "urbanization_pct" = Some (VInt urbanization_pct).

(** The two flags as the script reads them. *)
Definition challenge_on (s : session) : bool :=
  truthy (get s "challenge_on" (VBool false)).

Definition challenge_won (s : session) : bool :=
  truthy (get s "challenge_won" (VBool false)).

Definition compare_on (s : session) : bool :=
  truthy (get s "compare_on" (VBool false)).

(** A snapshot slot is either empty ([None]) or holds a snapshot whose frame
    has a last row; [slots_ok] says so of both slots as the script reads
    them. *)
Definition slot_ok (v : value) : Prop :=
  v = VNone \/
  exists params df,
    v = VScenario params df /\
    is_Some (last (temp_anomaly_C df)) /\
    is_Some (last (flood_risk df)) /\
    is_Some (last (drought_risk df)).

Definition slots_ok (s : session) : Prop :=
  slot_ok (get_none s "scenario_A") /\ slot_ok (get_none s "scenario_B").

(** A session as the widgets keep it: the mode and the difficulty are
    strings (the difficulty one of the three of the table), the five
    parameters are ints with a non-negative horizon, and the slots are well
    formed. *)
Definition well_formed (s : session) : Prop :=
  (exists m, s !! "mode" = Some (VStr m)) /\
  (exists d, s !! "difficulty_choice" = Some (VStr d) /\
             is_Some (DIFFICULTY_TARGETS !! d)) /\
  (exists years co2_ppm rainfall_change_pct green_infra_pct urbanization_pct,
     holds_parameters s years co2_ppm rainfall_change_pct green_infra_pct
                      urbanization_pct /\
     (0 <= years)%Z) /\
  slots_ok s.

(** The session a pass leaves behind. *)
Definition outcome_session (o : outcome) : session :=
  match o with
  | Rerun s => s
  | Done s _ => s
  end.

(** How many times [st.balloons()] ran. *)
Definition count_balloons (out : list ui) : nat :=
  length (List.filter is_balloons out).

(** ** The closed forms of the specification (section 4.1)

    Written from the specification's formulas, to be compared with
    [simulate]; [i] is the offset from the base year. *)
Section ClosedForms.
Local Open Scope R_scope.

Definition spec_tempSeries (co2Ppm : Z) (i : nat) : R :=
  1.2 * ln (IZR co2Ppm / 280) * (1 - exp (- INR i / 25)).

Definition spec_runoffIndex
    (rainfallChangePct greenInfraPct urbanizationPct : Z) : R :=
  (1 + IZR rainfallChangePct / 100)
  * (0.6 + 1.2 * IZR urbanizationPct / 100)
  * (1 - 0.55 * IZR greenInfraPct / 100).

Definition spec_floodRisk
    (co2Ppm rainfallChangePct greenInfraPct urbanizationPct : Z) (i : nat) : R :=
  100 * (1 - exp (-0.9
                  * spec_runoffIndex rainfallChangePct greenInfraPct
                                     urbanizationPct
                  * (1 + 0.08 * spec_tempSeries co2Ppm i))).

Definition spec_droughtRisk
    (co2Ppm rainfallChangePct greenInfraPct : Z) (i : nat) : R :=
  100 * (1 - exp (-0.8
                  * ((1 + 0.18 * spec_tempSeries co2Ppm i)
                     / (1 + IZR rainfallChangePct / 100))
                  * (1 - 0.15 * IZR greenInfraPct / 100))).

End ClosedForms.

(** ** Example sessions *)

(** The session of a first visit: every default seeded. *)
Definition fresh_session : session := seed_defaults ∅.

(** The challenge toggle switched on (difficulty Medium, not won yet). *)
Definition challenge_session : session :=
  <["challenge_on" := VBool true]> fresh_session.

(** Kids mode chosen while the urbanization slider stood at 90. *)
Definition kids_session : session :=
  <["mode" := VStr "Kids (simple)"]>
    (<["urbanization_pct" := VInt 90]> fresh_session).

(** A challenge won earlier and then switched off, the sliders since moved to
    650 ppm, green 10 and urbanization 65. *)
Definition stale_win_session : session :=
  <["urbanization_pct" := VInt 65]>
    (<["green_infra_pct" := VInt 10]>
       (<["co2_ppm" := VInt 650]>
          (<["challenge_won" := VBool true]> fresh_session))).

(** Snapshots of the default run and of the Business preset. *)
Definition scenario_default : value :=
  VScenario (mkParams (VStr "Standard") 80 450 10 20 40)
            (simulate 80 450 10 20 40).

Definition scenario_business : value :=
  VScenario (mkParams (VStr "Standard") 80 650 10 10 65)
            (simulate 80 650 10 10 65).

(** Comparison switched on with slot A saved, and with both slots saved. *)
Definition half_compare_session : session :=
  <["scenario_A" := scenario_default]>
    (<["compare_on" := VBool true]> fresh_session).

Definition compare_session : session :=
  <["scenario_B" := scenario_business]> half_compare_session.

(** ** Sessions in order, and what the user does

    The values the widgets of the sidebar can write, the sessions a pass
    can start from, and series of clicks and widget changes. *)

(** A value a slider declared with [min], [max] and [step] can deliver. *)
Definition slider (lo hi step v : Z) : Prop :=
  (lo <= v <= hi)%Z /\ ((v - lo) mod step = 0)%Z.

(** The five parameter entries hold values of their sliders (lines 186-198). *)
Definition sliders_ok (s : session) : Prop :=
  exists years co2_ppm rainfall_change_pct green_infra_pct urbanization_pct,
    holds_parameters s years co2_ppm rainfall_change_pct green_infra_pct
                     urbanization_pct /\
    slider 20 120 5 years /\ slider 280 900 10 co2_ppm /\
    slider (-30) 50 1 rainfall_change_pct /\
    slider 0 100 5 green_infra_pct /\ slider 0 100 5 urbanization_pct.

(** The session a pass can start from: after the seeding of lines 72-74 the
    mode and the difficulty are strings of their widgets, the parameters are
    slider values and the slots are well formed. *)
Definition session_ok (s : session) : Prop :=
  well_formed (seed_defaults s) /\ sliders_ok (seed_defaults s).

(** The buttons of the sidebar that end the pass before the simulation. *)
Definition early_button (b : button) : bool :=
  match b with
  | BtnReset | BtnBusiness | BtnGreen | BtnUrban | BtnResetChallenge => true
  | _ => false
  end.

(** What the user can do to the page: click a button, or change a widget.
    The widgets of lines 183-226 are bound to session keys; a change writes
    the chosen value under the key and starts a pass. *)
Inductive event :=
| Click (b : button)
| Edit (k : string) (v : value).

(** The values each widget offers: the radio and the selectbox their options,
    the sliders their range by their step, the toggles a bool. *)
Inductive widget_edit : string -> value -> Prop :=
| edit_mode (m : string) :
    m ∈ ["Standard"; "Kids (simple)"] -> widget_edit "mode" (VStr m)
| edit_years (n : Z) : slider 20 120 5 n -> widget_edit "years" (VInt n)
| edit_co2_ppm (n : Z) : slider 280 900 10 n -> widget_edit "co2_ppm" (VInt n)
| edit_rainfall_change_pct (n : Z) :
    slider (-30) 50 1 n -> widget_edit "rainfall_change_pct" (VInt n)
| edit_green_infra_pct (n : Z) :
    slider 0 100 5 n -> widget_edit "green_infra_pct" (VInt n)
| edit_urbanization_pct (n : Z) :
    slider 0 100 5 n -> widget_edit "urbanization_pct" (VInt n)
| edit_challenge_on (b : bool) : widget_edit "challenge_on" (VBool b)
| edit_difficulty_choice (d : string) :
    d ∈ ["Easy"; "Medium"; "Hard"] -> widget_edit "difficulty_choice" (VStr d)
| edit_compare_on (b : bool) : widget_edit "compare_on" (VBool b).

Definition valid_event (e : event) : Prop :=
  match e with
  | Click _ => True
  | Edit k v => widget_edit k v
  end.

(** One event: a click with the rerun it may cause, or an edit and its
    pass. *)
Definition handle (e : event) (s : session) : option outcome :=
  match e with
  | Click b => interaction (Some b) s
  | Edit k v => script None (<[k := v]> s)
  end.

(** A series of events, each starting from the session the one before
    left. *)
Fixpoint run (events : list event) (s : session) : option session :=
  match events with
  | [] => Some s
  | e :: rest => o ← handle e s; run rest (outcome_session o)
  end.

(** * Theorems *)

(** ** The model *)

Lemma length_arange (n : Z) : length (arange n) = Z.to_nat n.
Proof. unfold arange. by rewrite length_fmap, length_seq. Qed.

Lemma lookup_arange (n : Z) (i : nat) :
  (Z.of_nat i < n)%Z -> arange n !! i = Some (Z.of_nat i).
Proof.
  intros Hi. unfold arange.
  rewrite list_lookup_fmap, lookup_seq_lt by lia. done.
Qed.

Lemma lookup_arange_ge (n : Z) (i : nat) :
  (n <= Z.of_nat i)%Z -> arange n !! i = None.
Proof.
  intros Hi. unfold arange.
  rewrite list_lookup_fmap, lookup_seq_ge by lia. done.
Qed.

Section ModelFacts.
Local Open Scope R_scope.
Variables years co2_ppm rainfall_change_pct green_infra_pct urbanization_pct : Z.

Let df := simulate years co2_ppm rainfall_change_pct green_infra_pct
                   urbanization_pct.

Lemma simulate_lengths :
  length (year df) = Z.to_nat (years + 1) /\
  length (temp_anomaly_C df) = Z.to_nat (years + 1) /\
  length (flood_risk df) = Z.to_nat (years + 1) /\
  length (drought_risk df) = Z.to_nat (years + 1).
Proof.
  unfold df, simulate; simpl.
  rewrite !length_fmap, length_arange. done.
Qed.

Lemma simulate_year_lookup (i : nat) :
  (Z.of_nat i <= years)%Z -> year df !! i = Some (2025 + Z.of_nat i)%Z.
Proof.
  intros Hi. unfold df, simulate; simpl.
  rewrite list_lookup_fmap, lookup_arange by lia. done.
Qed.

Lemma simulate_temp_lookup (i : nat) :
  (Z.of_nat i <= years)%Z ->
  temp_anomaly_C df !! i = Some (spec_tempSeries co2_ppm i).
Proof.
  intros Hi. unfold df, simulate; simpl.
  rewrite list_lookup_fmap, lookup_arange by lia. simpl.
  unfold spec_tempSeries. by rewrite INR_IZR_INZ.
Qed.

Lemma simulate_flood_lookup (i : nat) :
  (Z.of_nat i <= years)%Z ->
  flood_risk df !! i
  = Some (spec_floodRisk co2_ppm rainfall_change_pct green_infra_pct
                         urbanization_pct i).
Proof.
  intros Hi. unfold df, simulate; simpl.
  rewrite !list_lookup_fmap, lookup_arange by lia. simpl.
  unfold spec_floodRisk, spec_runoffIndex, spec_tempSeries.
  rewrite INR_IZR_INZ. do 4 f_equal. lra.
Qed.

Lemma simulate_drought_lookup (i : nat) :
  (Z.of_nat i <= years)%Z ->
  drought_risk df !! i
  = Some (spec_droughtRisk co2_ppm rainfall_change_pct green_infra_pct i).
Proof.
  intros Hi. unfold df, simulate; simpl.
  rewrite !list_lookup_fmap, lookup_arange by lia. simpl.
  unfold spec_droughtRisk, spec_tempSeries.
  rewrite INR_IZR_INZ. do 4 f_equal.
  replace 100.0 with 100 by lra.
  set (q := _ / (1 + IZR rainfall_change_pct / 100)). lra.
Qed.

Lemma simulate_iloc (i : nat) :
  (Z.of_nat i <= years)%Z ->
  iloc df i
  = Some (mkRow (2025 + Z.of_nat i)
                (spec_tempSeries co2_ppm i)
                (spec_floodRisk co2_ppm rainfall_change_pct green_infra_pct
                                urbanization_pct i)
                (spec_droughtRisk co2_ppm rainfall_change_pct green_infra_pct
                                  i)).
Proof.
  intros Hi. unfold iloc.
  by rewrite simulate_year_lookup, simulate_temp_lookup,
             simulate_flood_lookup, simulate_drought_lookup.
Qed.

(** The end-of-horizon values, [df[col].iloc[-1]]. *)
Lemma simulate_last :
  (0 <= years)%Z ->
  last (temp_anomaly_C df) = Some (spec_tempSeries co2_ppm (Z.to_nat years)) /\
  last (flood_risk df)
  = Some (spec_floodRisk co2_ppm rainfall_change_pct green_infra_pct
                         urbanization_pct (Z.to_nat years)) /\
  last (drought_risk df)
  = Some (spec_droughtRisk co2_ppm rainfall_change_pct green_infra_pct
                           (Z.to_nat years)).
Proof.
  intros Hy. destruct simulate_lengths as (_ & Lt & Lf & Ld).
  rewrite !last_lookup, Lt, Lf, Ld.
  replace (Init.Nat.pred (Z.to_nat (years + 1))) with (Z.to_nat years) by lia.
  rewrite simulate_temp_lookup, simulate_flood_lookup,
          simulate_drought_lookup by lia.
  done.
Qed.

End ModelFacts.

(** Facts on [exp] and [ln] used below. *)
Section Saturation.
Local Open Scope R_scope.

Lemma exp_le_mono (x y : R) : x <= y -> exp x <= exp y.
Proof.
  intros [Hlt | ->]; [left; by apply exp_increasing | right; reflexivity].
Qed.

Lemma ln_nonneg (x : R) : 1 <= x -> 0 <= ln x.
Proof.
  intros [Hlt | <-].
  - left. rewrite <- ln_1. apply ln_increasing; lra.
  - right. symmetry. apply ln_1.
Qed.

Lemma exp_nonpos_le_1 (y : R) : y <= 0 -> exp y <= 1.
Proof. intros Hy. rewrite <- exp_0. by apply exp_le_mono. Qed.

(** The saturating transform [100 * (1 - exp y)] of a non-positive [y]. *)
Lemma saturating_range (y : R) : y <= 0 -> 0 <= 100 * (1 - exp y) < 100.
Proof.
  intros Hy. pose proof (exp_pos y). pose proof (exp_nonpos_le_1 y Hy). lra.
Qed.

Lemma IZR_bounds (lo hi n : Z) :
  (lo <= n <= hi)%Z -> IZR lo <= IZR n <= IZR hi.
Proof. intros [? ?]. split; by apply IZR_le. Qed.

Lemma spec_tempSeries_nonneg (co2Ppm : Z) (i : nat) :
  (280 <= co2Ppm)%Z -> 0 <= spec_tempSeries co2Ppm i.
Proof.
  intros Hc. unfold spec_tempSeries.
  apply IZR_le in Hc.
  assert (0 <= ln (IZR co2Ppm / 280)) by (apply ln_nonneg; lra).
  assert (exp (- INR i / 25) <= 1).
  { apply exp_nonpos_le_1. pose proof (pos_INR i). lra. }
  nra.
Qed.

Lemma spec_tempSeries_mono (co2Ppm : Z) (i j : nat) :
  (280 <= co2Ppm)%Z -> (i <= j)%nat ->
  spec_tempSeries co2Ppm i <= spec_tempSeries co2Ppm j.
Proof.
  intros Hc Hij. unfold spec_tempSeries.
  apply IZR_le in Hc. apply le_INR in Hij.
  assert (0 <= ln (IZR co2Ppm / 280)) by (apply ln_nonneg; lra).
  assert (exp (- INR j / 25) <= exp (- INR i / 25)) by (apply exp_le_mono; lra).
  nra.
Qed.

Lemma spec_runoffIndex_nonneg (rainfallChangePct greenInfraPct urbanizationPct : Z) :
  (-30 <= rainfallChangePct <= 50)%Z -> (0 <= greenInfraPct <= 100)%Z ->
  (0 <= urbanizationPct <= 100)%Z ->
  0 <= spec_runoffIndex rainfallChangePct greenInfraPct urbanizationPct.
Proof.
  intros Hr%IZR_bounds Hg%IZR_bounds Hu%IZR_bounds. unfold spec_runoffIndex.
  apply Rmult_le_pos; [apply Rmult_le_pos |]; lra.
Qed.

Lemma spec_floodRisk_range
    (co2Ppm rainfallChangePct greenInfraPct urbanizationPct : Z) (i : nat) :
  (280 <= co2Ppm)%Z ->
  (-30 <= rainfallChangePct <= 50)%Z -> (0 <= greenInfraPct <= 100)%Z ->
  (0 <= urbanizationPct <= 100)%Z ->
  0 <= spec_floodRisk co2Ppm rainfallChangePct greenInfraPct urbanizationPct i
    < 100.
Proof.
  intros Hc Hr Hg Hu. unfold spec_floodRisk.
  apply saturating_range.
  pose proof (spec_tempSeries_nonneg co2Ppm i Hc).
  pose proof (spec_runoffIndex_nonneg _ _ _ Hr Hg Hu).
  nra.
Qed.

Lemma spec_droughtRisk_range
    (co2Ppm rainfallChangePct greenInfraPct : Z) (i : nat) :
  (280 <= co2Ppm)%Z ->
  (-30 <= rainfallChangePct <= 50)%Z -> (0 <= greenInfraPct <= 100)%Z ->
  0 <= spec_droughtRisk co2Ppm rainfallChangePct greenInfraPct i < 100.
Proof.
  intros Hc Hr%IZR_bounds Hg%IZR_bounds. unfold spec_droughtRisk.
  apply saturating_range.
  pose proof (spec_tempSeries_nonneg co2Ppm i Hc).
  assert (0 <= (1 + 0.18 * spec_tempSeries co2Ppm i)
               / (1 + IZR rainfallChangePct / 100)).
  { apply Rle_mult_inv_pos; lra. }
  nra.
Qed.

End Saturation.

(** The flood risk of 650 ppm, rainfall +10, green 10, urbanization 65 after
    80 years is above every challenge target. *)
Lemma spec_floodRisk_business_high : (55 < spec_floodRisk 650 10 10 65 80)%R.
Proof.
  unfold spec_floodRisk.
  pose proof (spec_tempSeries_nonneg 650 80 ltac:(lia)) as Ht.
  set (T := spec_tempSeries 650 80) in *.
  assert (Hri : (spec_runoffIndex 10 10 65 = 1.43451)%R).
  { unfold spec_runoffIndex. lra. }
  rewrite Hri.
  assert (Hy : (-0.9 * 1.43451 * (1 + 0.08 * T) <= - 1.29)%R) by nra.
  pose proof (exp_le_mono _ _ Hy) as Hexp.
  replace (exp (- 1.29)) with (/ exp 1.29)%R in Hexp
    by (rewrite <- exp_Ropp; f_equal; lra).
  pose proof (exp_ineq1_le 1.29) as Hlow.
  assert (Hinv : (/ exp 1.29 <= / 2.29)%R).
  { apply Rinv_le_contravar; lra. }
  lra.
Qed.

Section ModelInversion.
Local Open Scope R_scope.
Variables years co2_ppm rainfall_change_pct green_infra_pct urbanization_pct : Z.

Let df := simulate years co2_ppm rainfall_change_pct green_infra_pct
                   urbanization_pct.

Lemma simulate_index_bound {A} (col : list A) (i : nat) (x : A) :
  length col = Z.to_nat (years + 1) -> col !! i = Some x ->
  (Z.of_nat i <= years)%Z.
Proof. intros Hlen Hx%lookup_lt_Some. lia. Qed.

Lemma simulate_temp_inv (i : nat) (t : R) :
  temp_anomaly_C df !! i = Some t -> t = spec_tempSeries co2_ppm i.
Proof.
  intros Ht.
  pose proof (simulate_index_bound _ _ _
                (proj1 (proj2 (simulate_lengths _ _ _ _ _))) Ht) as Hi.
  unfold df in Ht. rewrite simulate_temp_lookup in Ht by done. congruence.
Qed.

Lemma simulate_flood_inv (i : nat) (f : R) :
  flood_risk df !! i = Some f ->
  f = spec_floodRisk co2_ppm rainfall_change_pct green_infra_pct
                     urbanization_pct i.
Proof.
  intros Hf.
  pose proof (simulate_index_bound _ _ _
                (proj1 (proj2 (proj2 (simulate_lengths _ _ _ _ _)))) Hf) as Hi.
  unfold df in Hf. rewrite simulate_flood_lookup in Hf by done. congruence.
Qed.

Lemma simulate_drought_inv (i : nat) (d : R) :
  drought_risk df !! i = Some d ->
  d = spec_droughtRisk co2_ppm rainfall_change_pct green_infra_pct i.
Proof.
  intros Hd.
  pose proof (simulate_index_bound _ _ _
                (proj2 (proj2 (proj2 (simulate_lengths _ _ _ _ _)))) Hd) as Hi.
  unfold df in Hd. rewrite simulate_drought_lookup in Hd by done. congruence.
Qed.

End ModelInversion.

(** ** The session dict: lookups after the loops of the script *)

Lemma lookup_update_notin (items : list (string * value)) (s : session)
    (k : string) :
  k ∉ items.*1 -> update s items !! k = s !! k.
Proof.
  revert s. induction items as [| [k' v'] items IH]; intros s Hk; [done |].
  simpl in Hk. apply not_elem_of_cons in Hk as [Hne Hk].
  change (update (<[k' := v']> s) items !! k = s !! k).
  rewrite IH by done. by apply lookup_insert_ne.
Qed.

Lemma lookup_update_in (items : list (string * value)) (s : session)
    (k : string) (v : value) :
  NoDup items.*1 -> (k, v) ∈ items -> update s items !! k = Some v.
Proof.
  revert s. induction items as [| [k' v'] items IH]; intros s Hnd Hin.
  - by apply elem_of_nil in Hin.
  - simpl in Hnd. apply NoDup_cons in Hnd as [Hk' Hnd].
    apply elem_of_cons in Hin as [Heq | Hin].
    + injection Heq as -> ->.
      change (update (<[k' := v']> s) items !! k' = Some v').
      rewrite lookup_update_notin by done. apply lookup_insert_eq.
    + change (update (<[k' := v']> s) items !! k = Some v). by apply IH.
Qed.

Lemma lookup_pop_notin (keys : list string) (s : session) (k : string) :
  k ∉ keys -> foldl (fun st key => delete key st) s keys !! k = s !! k.
Proof.
  revert s. induction keys as [| k' keys IH]; intros s Hk; [done |].
  apply not_elem_of_cons in Hk as [Hne Hk].
  simpl. rewrite IH by done. by apply lookup_delete_ne.
Qed.

(** Seeding keeps every entry that is there and fills a missing key from
    [DEFAULTS]. *)
Lemma lookup_seed_defaults (s : session) (k : string) :
  seed_defaults s !! k
  = match s !! k with
    | Some v => Some v
    | None => (list_to_map DEFAULTS : session) !! k
    end.
Proof.
  unfold seed_defaults. generalize DEFAULTS as items. intros items. revert s.
  induction items as [| [k' v'] items IH]; intros s; simpl.
  - rewrite lookup_empty. by destruct (s !! k).
  - rewrite IH. destruct (s !! k') as [w|] eqn:Hk'.
    + destruct (s !! k) eqn:Hk; [done |].
      rewrite lookup_insert_ne; [done | congruence].
    + destruct (decide (k' = k)) as [-> | Hne].
      * by rewrite Hk', !lookup_insert_eq.
      * by rewrite !lookup_insert_ne.
Qed.

Lemma DEFAULTS_NoDup : NoDup DEFAULTS.*1.
Proof. compute_done. Qed.

Lemma reset_keys_DEFAULTS : reset_keys = DEFAULTS.*1.
Proof. reflexivity. Qed.

Lemma lookup_reset_to_default (s : session) (k : string) (v : value) :
  (k, v) ∈ DEFAULTS -> reset_to_default s !! k = Some v.
Proof.
  intros Hin. unfold reset_to_default.
  apply lookup_update_in; [apply DEFAULTS_NoDup | done].
Qed.

Lemma lookup_reset_to_default_other (s : session) (k : string) :
  k ∉ reset_keys -> reset_to_default s !! k = s !! k.
Proof.
  intros Hk. unfold reset_to_default.
  rewrite lookup_update_notin by (by rewrite <- reset_keys_DEFAULTS).
  by apply lookup_pop_notin.
Qed.

(** Membership in a literal list of entries, by computation on the keys. *)
Ltac entry_in := repeat first [apply list_elem_of_here | apply list_elem_of_further].

Ltac key_notin :=
  repeat (apply not_elem_of_cons; split; [discriminate |]); apply not_elem_of_nil.

(** After a reset every default key is there, so the seeding of the next pass
    finds nothing to add. *)
Lemma seed_defaults_reset_to_default (s : session) :
  seed_defaults (reset_to_default s) = reset_to_default s.
Proof.
  apply map_eq. intros k. rewrite lookup_seed_defaults.
  destruct (reset_to_default s !! k) eqn:Hk; [done |].
  apply not_elem_of_list_to_map_1. intros Hin.
  apply list_elem_of_fmap in Hin as ([k' v] & -> & Hin).
  simpl in Hk. rewrite (lookup_reset_to_default s k' v Hin) in Hk. done.
Qed.

Lemma get_insert_eq (s : session) (k : string) (v dflt : value) :
  get (<[k := v]> s) k dflt = v.
Proof. unfold get. by rewrite lookup_insert_eq. Qed.

(** Seeding does not change how the flags read: an absent flag reads as
    false and is seeded as false. *)
Lemma challenge_on_seed_defaults (s : session) :
  challenge_on (seed_defaults s) = challenge_on s.
Proof.
  unfold challenge_on, get. rewrite lookup_seed_defaults.
  by destruct (s !! "challenge_on").
Qed.

Lemma challenge_won_seed_defaults (s : session) :
  challenge_won (seed_defaults s) = challenge_won s.
Proof.
  unfold challenge_won, get. rewrite lookup_seed_defaults.
  by destruct (s !! "challenge_won").
Qed.

(** ** The handlers and blocks of the page *)

(** What a preset dict does to a session, for any dict over the seven keys. *)
Lemma preset_update (bundle : list (string * value)) (s : session)
    (years co2_ppm rainfall_change_pct green_infra_pct urbanization_pct : Z) :
  bundle
  = [ ("mode", VStr "Standard"); ("years", VInt years);
      ("co2_ppm", VInt co2_ppm);
      ("rainfall_change_pct", VInt rainfall_change_pct);
      ("green_infra_pct", VInt green_infra_pct);
      ("urbanization_pct", VInt urbanization_pct);
      ("challenge_won", VBool false) ] ->
  holds_parameters (update s bundle) years co2_ppm rainfall_change_pct
                   green_infra_pct urbanization_pct /\
  update s bundle !! "mode" = Some (VStr "Standard") /\
  update s bundle !! "challenge_won" = Some (VBool false) /\
  (forall k : string, k ∉ bundle.*1 -> update s bundle !! k = s !! k) /\
  update s bundle !! "challenge_on" = s !! "challenge_on" /\
  update s bundle !! "difficulty_choice" = s !! "difficulty_choice" /\
  update s bundle !! "compare_on" = s !! "compare_on" /\
  update s bundle !! "scenario_A" = s !! "scenario_A" /\
  update s bundle !! "scenario_B" = s !! "scenario_B".
Proof.
  intros ->. unfold holds_parameters.
  repeat split;
    try (apply lookup_update_in; [compute_done | entry_in]);
    try (apply lookup_update_notin; simpl; key_notin);
    try (by apply lookup_update_notin).
Qed.

Lemma mode_branch_kids (s : session) :
  s !! "mode" = Some (VStr "Kids (simple)") ->
  mode_branch s = Some (<["urbanization_pct" := VInt 45]> s).
Proof. intros Hm. unfold mode_branch. by rewrite Hm. Qed.

Lemma mode_branch_frame (s s1 : session) (k : string) :
  mode_branch s = Some s1 -> k <> "urbanization_pct" -> s1 !! k = s !! k.
Proof.
  unfold mode_branch. intros Hm Hk.
  destruct (s !! "mode") as [m|]; [simpl in Hm | done].
  injection Hm as <-. destruct (is_kids m); [| done].
  by apply lookup_insert_ne.
Qed.

Lemma run_simulation_insert_urbanization (s : session) (u : Z) :
  run_simulation (<["urbanization_pct" := VInt u]> s)
  = (years ← s !! "years" ≫= as_int;
     co2_ppm ← s !! "co2_ppm" ≫= as_int;
     rainfall_change_pct ← s !! "rainfall_change_pct" ≫= as_int;
     green_infra_pct ← s !! "green_infra_pct" ≫= as_int;
     Some (simulate years co2_ppm rainfall_change_pct green_infra_pct u)).
Proof.
  unfold run_simulation.
  rewrite lookup_insert_eq, !lookup_insert_ne by done.
  destruct (s !! "years" ≫= as_int); [simpl | done].
  destruct (s !! "co2_ppm" ≫= as_int); [simpl | done].
  destruct (s !! "rainfall_change_pct" ≫= as_int); [simpl | done].
  by destruct (s !! "green_infra_pct" ≫= as_int).
Qed.

Lemma Rleb_true (x y : R) : Rleb x y = true <-> (x <= y)%R.
Proof. unfold Rleb. destruct (Rle_dec x y); split; intros; done. Qed.

Lemma count_balloons_boxes (a b : bool) (m1 m2 m3 m4 : string) :
  count_balloons [ if a then StSuccess m1 else StError m2;
                   if b then StSuccess m3 else StError m4 ] = 0%nat.
Proof. by destruct a, b. Qed.

Lemma count_balloons_app (l1 l2 : list ui) :
  count_balloons (l1 ++ l2) = (count_balloons l1 + count_balloons l2)%nat.
Proof. unfold count_balloons. by rewrite List.filter_app, length_app. Qed.

(** The challenge status block writes no key but [challenge_won]. *)
Lemma challenge_status_frame (s : session) (flood_val drought_val : R)
    (target_flood target_drought : Z) (k : string) :
  k <> "challenge_won" ->
  (challenge_status s flood_val drought_val target_flood target_drought).1 !! k
  = s !! k.
Proof.
  intros Hk. unfold challenge_status.
  repeat case_match; simpl; try done; by rewrite lookup_insert_ne.
Qed.

(** The block when the challenge is enabled, by cases on the two
    comparisons and on the won flag. *)
Lemma challenge_status_enabled (s : session) (flood_val drought_val : R)
    (target_flood target_drought : Z) :
  challenge_on s = true ->
  exists boxes,
    count_balloons boxes = 0%nat /\
    challenge_status s flood_val drought_val target_flood target_drought
    = if Rleb flood_val (IZR target_flood)
         && Rleb drought_val (IZR target_drought)
      then if challenge_won s then (s, boxes)
           else (<["challenge_won" := VBool true]> s, boxes ++ [StBalloons])
      else (<["challenge_won" := VBool false]> s, boxes).
Proof.
  intros Hon. unfold challenge_status. fold (challenge_on s). rewrite Hon.
  fold (challenge_won s).
  eexists. split; [apply count_balloons_boxes |].
  destruct (Rleb flood_val _ && Rleb drought_val _); [| done].
  by destruct (challenge_won s).
Qed.

Lemma challenge_status_disabled (s : session) (flood_val drought_val : R)
    (target_flood target_drought : Z) :
  challenge_on s = false ->
  challenge_status s flood_val drought_val target_flood target_drought
  = (s, []).
Proof.
  intros Hoff. unfold challenge_status. fold (challenge_on s). by rewrite Hoff.
Qed.

Lemma count_balloons_compare (A B : value) (cmp : list ui) :
  compare A B = Some cmp -> count_balloons cmp = 0%nat.
Proof.
  unfold compare. intros H.
  destruct (negb (truthy A) || negb (truthy B)); [by injection H as <- |].
  repeat (match type of H with
          | (?m ≫= _) = Some _ => destruct m; [simpl in H | done]
          end).
  by injection H as <-.
Qed.

Lemma count_balloons_scenario_comparison (s : session) (cmp : list ui) :
  scenario_comparison s = Some cmp -> count_balloons cmp = 0%nat.
Proof.
  unfold scenario_comparison. destruct (truthy _).
  - apply count_balloons_compare.
  - by intros [= <-].
Qed.

Lemma scenario_comparison_off (s : session) :
  compare_on s = false -> scenario_comparison s = Some [].
Proof.
  intros Hoff. unfold scenario_comparison. fold (compare_on s). by rewrite Hoff.
Qed.

(** ** Passes of the script *)

Lemma clicked_None (b : button) : clicked None b = false.
Proof. reflexivity. Qed.

(** One step of the option monad, without unfolding anything else. *)
Ltac option_step := cbn [mbind option_bind mret option_ret as_int fst snd].
Ltac option_step_in H :=
  cbn [mbind option_bind mret option_ret as_int fst snd] in H.

(** What a pass that reaches the end of the page has done, in order. *)
Lemma script_done_inv (click : option button) (s0 s' : session)
    (out : list ui) :
  script click s0 = Some (Done s' out) ->
  exists s1 targets df flood_val drought_val temp_val boxes cmp,
    mode_branch (seed_defaults s0) = Some s1 /\
    difficulty_targets s1 = Some targets /\
    run_simulation s1 = Some df /\
    last (flood_risk df) = Some flood_val /\
    last (drought_risk df) = Some drought_val /\
    last (temp_anomaly_C df) = Some temp_val /\
    challenge_status s1 flood_val drought_val targets.1 targets.2
    = (s', boxes) /\
    scenario_comparison s' = Some cmp /\
    out = boxes ++ top_metrics temp_val flood_val drought_val
                ++ cmp ++ [StDataframe df].
Proof.
  unfold script. intros H.
  repeat (match type of H with
          | (if ?b then _ else _) = _ => destruct b; [discriminate |]
          end).
  destruct (mode_branch (seed_defaults s0)) as [s1|] eqn:Hmode;
    [simpl in H | done].
  match type of H with
  | (if ?b then _ else _) = _ => destruct b; [discriminate |]
  end.
  destruct (difficulty_targets s1) as [targets|] eqn:Htargets;
    [simpl in H | done].
  destruct (run_simulation s1) as [df|] eqn:Hdf; [simpl in H | done].
  destruct (last (flood_risk df)) as [fv|] eqn:Hfv; [simpl in H | done].
  destruct (last (drought_risk df)) as [dv|] eqn:Hdv; [simpl in H | done].
  destruct (last (temp_anomaly_C df)) as [tv|] eqn:Htv; [simpl in H | done].
  repeat (match type of H with
          | (if ?b then _ else _) = _ =>
              destruct b;
              [by (try destruct (snapshot_current s1 df); simpl in H) |]
          end).
  destruct (challenge_status s1 fv dv targets.1 targets.2) as [s2 boxes]
    eqn:Hstatus.
  destruct (scenario_comparison s2) as [cmp|] eqn:Hcmp; [simpl in H | done].
  injection H as <- <-.
  by exists s1, targets, df, fv, dv, tv, boxes, cmp.
Qed.

(** A pass without a click, on a session whose parameter entries are ints
    with a non-negative horizon: the simulation runs, its end-of-horizon
    values are the closed forms at the last offset, and the pass goes on to
    the challenge and comparison blocks. *)
Lemma script_recompute (s0 s1 : session) (targets : Z * Z)
    (years co2_ppm rainfall_change_pct green_infra_pct urbanization_pct : Z) :
  mode_branch (seed_defaults s0) = Some s1 ->
  difficulty_targets s1 = Some targets ->
  holds_parameters s1 years co2_ppm rainfall_change_pct green_infra_pct
                   urbanization_pct ->
  (0 <= years)%Z ->
  script None s0
  = (let n := Z.to_nat years in
     let temp_val := spec_tempSeries co2_ppm n in
     let flood_val :=
       spec_floodRisk co2_ppm rainfall_change_pct green_infra_pct
                      urbanization_pct n in
     let drought_val :=
       spec_droughtRisk co2_ppm rainfall_change_pct green_infra_pct n in
     let status :=
       challenge_status s1 flood_val drought_val targets.1 targets.2 in
     cmp ← scenario_comparison status.1;
     Some (Done status.1
             (status.2 ++ top_metrics temp_val flood_val drought_val ++ cmp
                ++ [StDataframe
                      (simulate years co2_ppm rainfall_change_pct
                                green_infra_pct urbanization_pct)]))).
Proof.
  intros Hmode Htargets (Hy & Hc & Hr & Hg & Hu) Hpos.
  destruct (simulate_last years co2_ppm rainfall_change_pct green_infra_pct
              urbanization_pct Hpos) as (Ht & Hf & Hd).
  unfold script. rewrite !clicked_None. cbv beta iota zeta.
  rewrite Hmode. option_step.
  rewrite Htargets. option_step.
  unfold run_simulation. rewrite Hy, Hc, Hr, Hg, Hu. option_step.
  rewrite Hf. option_step. rewrite Hd. option_step. rewrite Ht. option_step.
  rewrite !andb_false_r. cbv beta iota.
  by destruct (challenge_status _ _ _ _ _).
Qed.

(** A pass that no button started does not call [st.rerun()]. *)
Lemma script_no_click_no_rerun (s0 s' : session) :
  script None s0 <> Some (Rerun s').
Proof.
  unfold script. rewrite !clicked_None. cbv beta iota zeta.
  generalize (seed_defaults s0). intros s H.
  destruct (mode_branch s) as [s1|]; [option_step_in H | done].
  destruct (difficulty_targets s1) as [targets|]; [option_step_in H | done].
  destruct (run_simulation s1) as [df|]; [option_step_in H | done].
  destruct (last (flood_risk df)) as [fv|]; [option_step_in H | done].
  destruct (last (drought_risk df)) as [dv|]; [option_step_in H | done].
  destruct (last (temp_anomaly_C df)) as [tv|]; [option_step_in H | done].
  rewrite !andb_false_r in H. cbv beta iota in H.
  destruct (challenge_status s1 fv dv targets.1 targets.2) as [s2 boxes].
  by destruct (scenario_comparison s2).
Qed.

(** The whole interaction of a click on the reset button: the handler, the
    rerun, and the page of the default scenario. *)
Lemma interaction_reset (s : session) :
  interaction (Some BtnReset) s
  = Some (Done (reset_to_default (seed_defaults s))
            (top_metrics (spec_tempSeries 450 80)
                         (spec_floodRisk 450 10 20 40 80)
                         (spec_droughtRisk 450 10 20 80)
             ++ [StDataframe (simulate 80 450 10 20 40)])).
Proof.
  unfold interaction.
  change (script (Some BtnReset) s)
    with (Some (Rerun (reset_to_default (seed_defaults s)))).
  cbv beta iota.
  set (s1 := reset_to_default (seed_defaults s)).
  assert (Hlook : forall k v, (k, v) ∈ DEFAULTS -> s1 !! k = Some v).
  { intros k v Hin. by apply lookup_reset_to_default. }
  rewrite (script_recompute s1 s1 (40, 40)%Z 80 450 10 20 40).
  - cbn zeta. rewrite challenge_status_disabled.
    + cbn [fst snd]. rewrite scenario_comparison_off; [done |].
      unfold compare_on, get. rewrite (Hlook "compare_on" (VBool false)); [done |].
      entry_in.
    + unfold challenge_on, get.
      rewrite (Hlook "challenge_on" (VBool false)); [done | entry_in].
  - unfold s1. rewrite seed_defaults_reset_to_default. fold s1.
    unfold mode_branch.
    rewrite (Hlook "mode" (VStr "Standard")); [done | entry_in].
  - unfold difficulty_targets.
    rewrite (Hlook "difficulty_choice" (VStr "Medium")); [done | entry_in].
  - unfold holds_parameters. repeat split; apply Hlook; entry_in.
  - lia.
Qed.

Lemma slots_ok_frame (s s' : session) :
  s' !! "scenario_A" = s !! "scenario_A" ->
  s' !! "scenario_B" = s !! "scenario_B" ->
  slots_ok s -> slots_ok s'.
Proof. unfold slots_ok, get_none, get. by intros -> ->. Qed.

Lemma slots_ok_seed_defaults (s : session) :
  slots_ok s -> slots_ok (seed_defaults s).
Proof.
  unfold slots_ok, get_none, get. rewrite !lookup_seed_defaults.
  by destruct (s !! "scenario_A"), (s !! "scenario_B").
Qed.

Lemma slot_ok_snapshot (s : session) (df : DataFrame) (snap : value) :
  snapshot_current s df = Some snap ->
  is_Some (last (temp_anomaly_C df)) -> is_Some (last (flood_risk df)) ->
  is_Some (last (drought_risk df)) ->
  slot_ok snap.
Proof.
  unfold snapshot_current. intros H Ht Hf Hd.
  repeat (match type of H with
          | (?m ≫= _) = Some _ => destruct m; [simpl in H | done]
          end).
  injection H as <-. right. by eexists _, _.
Qed.

(** Every pass keeps the slots well formed, whatever button started it. *)
Lemma script_preserves_slots (click : option button) (s0 : session)
    (o : outcome) :
  script click s0 = Some o -> slots_ok s0 -> slots_ok (outcome_session o).
Proof.
  intros Hrun Hok%slots_ok_seed_defaults. revert Hrun. unfold script.
  generalize dependent (seed_defaults s0). clear s0. intros s Hok.
  destruct (clicked click BtnReset).
  { intros [= <-]. cbn [outcome_session]. split; left; unfold get_none, get.
    - by rewrite (lookup_reset_to_default s "scenario_A" VNone) by entry_in.
    - by rewrite (lookup_reset_to_default s "scenario_B" VNone) by entry_in. }
  assert (Hpreset : forall bundle,
            bundle ∈ [preset_business; preset_green; preset_urban] ->
            slots_ok (update s bundle)).
  { intros bundle Hb. apply (slots_ok_frame s); [| | done];
      apply lookup_update_notin;
      repeat (apply elem_of_cons in Hb as [-> | Hb]; [simpl; key_notin |]);
      by apply elem_of_nil in Hb. }
  destruct (clicked click BtnBusiness).
  { intros [= <-]. cbn [outcome_session]. apply (Hpreset preset_business). entry_in. }
  destruct (clicked click BtnGreen).
  { intros [= <-]. cbn [outcome_session]. apply (Hpreset preset_green). entry_in. }
  destruct (clicked click BtnUrban).
  { intros [= <-]. cbn [outcome_session]. apply (Hpreset preset_urban). entry_in. }
  destruct (mode_branch s) as [s1|] eqn:Hmode; [option_step | done].
  assert (Hok1 : slots_ok s1).
  { apply (slots_ok_frame s); [| | done];
      by apply (mode_branch_frame _ _ _ Hmode). }
  destruct (clicked click BtnResetChallenge).
  { intros [= <-]. cbn [outcome_session].
    apply (slots_ok_frame s1); [| | done];
      unfold reset_challenge;
      by rewrite lookup_delete_ne, lookup_insert_ne. }
  destruct (difficulty_targets s1) as [targets|]; [option_step | done].
  destruct (run_simulation s1) as [df|]; [option_step | done].
  destruct (last (flood_risk df)) as [fv|] eqn:Hfv; [option_step | done].
  destruct (last (drought_risk df)) as [dv|] eqn:Hdv; [option_step | done].
  destruct (last (temp_anomaly_C df)) as [tv|] eqn:Htv; [option_step | done].
  destruct Hok1 as [HA HB].
  destruct (_ && clicked click BtnSaveA).
  { destruct (snapshot_current s1 df) as [snap|] eqn:Hsnap; [option_step | done].
    intros [= <-]. cbn [outcome_session]. split; unfold get_none, get.
    - rewrite lookup_insert_eq. cbn [default].
      apply (slot_ok_snapshot _ _ _ Hsnap); by rewrite ?Hfv, ?Hdv, ?Htv.
    - by rewrite lookup_insert_ne. }
  destruct (_ && clicked click BtnSaveB).
  { destruct (snapshot_current s1 df) as [snap|] eqn:Hsnap; [option_step | done].
    intros [= <-]. cbn [outcome_session]. split; unfold get_none, get.
    - by rewrite lookup_insert_ne.
    - rewrite lookup_insert_eq. cbn [default].
      apply (slot_ok_snapshot _ _ _ Hsnap); by rewrite ?Hfv, ?Hdv, ?Htv. }
  destruct (_ && clicked click BtnClear).
  { intros [= <-]. cbn [outcome_session]. split; left; unfold get_none, get.
    - by rewrite lookup_insert_ne, lookup_insert_eq.
    - by rewrite lookup_insert_eq. }
  destruct (challenge_status s1 fv dv targets.1 targets.2) as [s2 boxes]
    eqn:Hstatus.
  destruct (scenario_comparison s2); [option_step | done].
  intros [= <-]. cbn [outcome_session].
  replace s2 with (challenge_status s1 fv dv targets.1 targets.2).1
    by (by rewrite Hstatus).
  apply (slots_ok_frame s1); [| | done]; by apply challenge_status_frame.
Qed.

(** On well-formed slots the comparison never fails. *)
Lemma compare_slots_ok (A B : value) :
  slot_ok A -> slot_ok B -> is_Some (compare A B).
Proof.
  intros [-> | (pA & dfA & -> & [tA HtA] & [fA HfA] & [dA HdA])]; [done |].
  intros [-> | (pB & dfB & -> & [tB HtB] & [fB HfB] & [dB HdB])]; [done |].
  unfold compare. simpl. by rewrite HtA, HfA, HdA, HtB, HfB, HdB.
Qed.

Lemma script_total (click : option button) (s0 : session) :
  well_formed (seed_defaults s0) -> is_Some (script click s0).
Proof.
  unfold script. generalize (seed_defaults s0). clear s0.
  intros s ([m Hm] & (d & Hd & [targets Htargets])
            & (y & c & r & g & u & Hp & Hy) & Hslots).
  repeat (match goal with
          | |- is_Some (if ?b then Some _ else _) => destruct b; [done |]
          end).
  destruct (mode_branch s) as [s1|] eqn:Hmode;
    [| unfold mode_branch in Hmode; by rewrite Hm in Hmode].
  option_step.
  assert (Hframe : forall k, k <> "urbanization_pct" -> s1 !! k = s !! k).
  { intros k Hk. by apply (mode_branch_frame _ _ _ Hmode). }
  assert (exists u', s1 !! "urbanization_pct" = Some (VInt u')) as [u' Hu'].
  { unfold mode_branch in Hmode. rewrite Hm in Hmode. option_step_in Hmode.
    injection Hmode as <-. destruct (String.eqb m _).
    - eexists. apply lookup_insert_eq.
    - exists u. apply Hp. }
  destruct Hp as (Hpy & Hpc & Hpr & Hpg & _).
  destruct (clicked click BtnResetChallenge); [done |].
  unfold difficulty_targets. rewrite Hframe, Hd by done. option_step.
  rewrite Htargets. option_step.
  unfold run_simulation.
  rewrite (Hframe "years"), (Hframe "co2_ppm"),
          (Hframe "rainfall_change_pct"), (Hframe "green_infra_pct") by done.
  rewrite Hpy, Hpc, Hpr, Hpg, Hu'. option_step.
  destruct (simulate_last y c r g u' Hy) as (Ht & Hf & Hd').
  rewrite Hf. option_step. rewrite Hd'. option_step. rewrite Ht. option_step.
  assert (Hsnap : is_Some (snapshot_current s1 (simulate y c r g u'))).
  { unfold snapshot_current.
    rewrite (Hframe "mode"), (Hframe "years"), (Hframe "co2_ppm"),
            (Hframe "rainfall_change_pct"), (Hframe "green_infra_pct")
      by done.
    by rewrite Hm, Hpy, Hpc, Hpr, Hpg, Hu'. }
  destruct Hsnap as [snap Hsnap].
  repeat (match goal with
          | |- is_Some (if ?b then _ else _) =>
              destruct b; [by rewrite ?Hsnap |]
          end).
  destruct (challenge_status s1 _ _ _ _) as [s2 boxes] eqn:Hstatus.
  assert (Hok2 : slots_ok s2).
  { replace s2 with (s2, boxes).1 by done. rewrite <- Hstatus.
    apply (slots_ok_frame s); [| | done];
      by rewrite challenge_status_frame, Hframe. }
  unfold scenario_comparison.
  destruct (truthy _); [| done].
  destruct (compare_slots_ok _ _ (proj1 Hok2) (proj2 Hok2)) as [cmp ->].
  done.
Qed.

Lemma script_stale_win_session :
  script None stale_win_session
  = Some (Done stale_win_session
            (top_metrics (spec_tempSeries 650 80)
                         (spec_floodRisk 650 10 10 65 80)
                         (spec_droughtRisk 650 10 10 80)
             ++ [StDataframe (simulate 80 650 10 10 65)])).
Proof.
  rewrite (script_recompute stale_win_session stale_win_session (40, 40)%Z
             80 650 10 10 65);
    [| reflexivity | reflexivity | by repeat split | lia].
  cbn zeta. rewrite challenge_status_disabled by reflexivity.
  cbn [fst snd]. rewrite scenario_comparison_off by reflexivity.
  reflexivity.
Qed.

Lemma script_kids_session :
  script None kids_session
  = Some (Done (<["urbanization_pct" := VInt 45]> kids_session)
            (top_metrics (spec_tempSeries 450 80)
                         (spec_floodRisk 450 10 20 45 80)
                         (spec_droughtRisk 450 10 20 80)
             ++ [StDataframe (simulate 80 450 10 20 45)])).
Proof.
  rewrite (script_recompute kids_session
             (<["urbanization_pct" := VInt 45]> kids_session) (40, 40)%Z
             80 450 10 20 45);
    [| reflexivity | reflexivity | by repeat split | lia].
  cbn zeta. rewrite challenge_status_disabled by reflexivity.
  cbn [fst snd]. rewrite scenario_comparison_off by reflexivity.
  reflexivity.
Qed.

(** ** The claims of the specification *)

(** C1.  On the slider domain, [simulate] applies [ln] to a positive number
    and divides by a positive rainfall factor, and at every offset [i] of
    [0..years] its three series are the closed forms of the specification:
    [tempSeries[i] = 1.2*ln(co2/280)*(1 - exp(-i/25))], the flood risk
    [100*(1 - exp(-0.9*runoffIndex*(1 + 0.08*tempSeries[i])))] and the drought
    risk [100*(1 - exp(-0.8*((1 + 0.18*tempSeries[i])/rainfallFactor)
    *(1 - 0.15*green/100)))].  Being a Rocq function, [simulate] is pure and
    deterministic by construction. *)
Theorem simulate_closed_form
    (years co2_ppm rainfall_change_pct green_infra_pct urbanization_pct : Z)
    (i : nat) :
  in_domain years co2_ppm rainfall_change_pct green_infra_pct urbanization_pct ->
  (Z.of_nat i <= years)%Z ->
  (0 < IZR co2_ppm / 280)%R /\
  (0 < 1 + IZR rainfall_change_pct / 100.0)%R /\
  temp_anomaly_C (simulate years co2_ppm rainfall_change_pct green_infra_pct
                           urbanization_pct) !! i
  = Some (spec_tempSeries co2_ppm i) /\
  flood_risk (simulate years co2_ppm rainfall_change_pct green_infra_pct
                       urbanization_pct) !! i
  = Some (spec_floodRisk co2_ppm rainfall_change_pct green_infra_pct
                         urbanization_pct i) /\
  drought_risk (simulate years co2_ppm rainfall_change_pct green_infra_pct
                         urbanization_pct) !! i
  = Some (spec_droughtRisk co2_ppm rainfall_change_pct green_infra_pct i).
Proof.
  intros (Hy & Hc%IZR_bounds & Hr%IZR_bounds & Hg & Hu) Hi.
  split; [lra |]. split; [lra |].
  split; [by apply simulate_temp_lookup |].
  split; [by apply simulate_flood_lookup | by apply simulate_drought_lookup].
Qed.

Lemma simulate_closed_form_witness :
  in_domain 80 450 10 20 40 /\ (Z.of_nat 80 <= 80)%Z /\
  temp_anomaly_C (simulate 80 450 10 20 40) !! 80%nat
  = Some (spec_tempSeries 450 80) /\
  flood_risk (simulate 80 450 10 20 40) !! 80%nat
  = Some (spec_floodRisk 450 10 20 40 80) /\
  drought_risk (simulate 80 450 10 20 40) !! 80%nat
  = Some (spec_droughtRisk 450 10 20 80).
Proof.
  assert (Hd : in_domain 80 450 10 20 40) by (unfold in_domain; lia).
  assert (Hi : (Z.of_nat 80 <= 80)%Z) by lia.
  split; [exact Hd |]. split; [exact Hi |].
  exact (proj2 (proj2 (simulate_closed_form 80 450 10 20 40 80 Hd Hi))).
Defined.

(** C2.  On the slider domain the frame returned by [simulate] has exactly
    [years + 1] rows (every column has that length), and its [year] column
    counts up by one from 2025 at offset 0 to [2025 + years] at the last
    offset. *)
Theorem simulate_years
    (years co2_ppm rainfall_change_pct green_infra_pct urbanization_pct : Z) :
  in_domain years co2_ppm rainfall_change_pct green_infra_pct urbanization_pct ->
  let df := simulate years co2_ppm rainfall_change_pct green_infra_pct
                     urbanization_pct in
  Z.of_nat (length (year df)) = (years + 1)%Z /\
  length (temp_anomaly_C df) = length (year df) /\
  length (flood_risk df) = length (year df) /\
  length (drought_risk df) = length (year df) /\
  (forall i : nat, (i < length (year df))%nat ->
     exists r, iloc df i = Some r /\ r_year r = (2025 + Z.of_nat i)%Z) /\
  (forall i : nat, (length (year df) <= i)%nat -> iloc df i = None) /\
  year df !! 0%nat = Some 2025%Z /\
  last (year df) = Some (2025 + years)%Z /\
  (forall (i : nat) (y y' : Z),
     year df !! i = Some y -> year df !! S i = Some y' -> y' = (y + 1)%Z).
Proof.
  intros (Hy & _) df.
  destruct (simulate_lengths years co2_ppm rainfall_change_pct green_infra_pct
              urbanization_pct) as (Ly & Lt & Lf & Ld).
  fold df in Ly, Lt, Lf, Ld.
  assert (Hlook : forall i : nat, (i < length (year df))%nat ->
            year df !! i = Some (2025 + Z.of_nat i)%Z).
  { intros i Hi. apply simulate_year_lookup. lia. }
  split; [lia |]. split; [congruence |]. split; [congruence |].
  split; [congruence |]. split; [| split; [| split; [| split]]].
  - intros i Hi. unfold iloc. rewrite (Hlook i Hi).
    destruct (lookup_lt_is_Some_2 (temp_anomaly_C df) i) as [t ->]; [lia |].
    destruct (lookup_lt_is_Some_2 (flood_risk df) i) as [f ->]; [lia |].
    destruct (lookup_lt_is_Some_2 (drought_risk df) i) as [d ->]; [lia |].
    eexists; split; [reflexivity | reflexivity].
  - intros i Hi. unfold iloc. by rewrite (lookup_ge_None_2 (year df) i Hi).
  - apply Hlook. lia.
  - rewrite last_lookup, Ly. rewrite Hlook by lia. f_equal. lia.
  - intros i y y' H1 H2.
    rewrite Hlook in H1 by (by eapply lookup_lt_Some).
    rewrite Hlook in H2 by (by eapply lookup_lt_Some).
    simplify_eq. lia.
Qed.

Lemma simulate_years_witness :
  in_domain 80 450 10 20 40 /\
  Z.of_nat (length (year (simulate 80 450 10 20 40))) = 81%Z /\
  year (simulate 80 450 10 20 40) !! 0%nat = Some 2025%Z /\
  last (year (simulate 80 450 10 20 40)) = Some 2105%Z.
Proof.
  assert (Hd : in_domain 80 450 10 20 40) by (unfold in_domain; lia).
  pose proof (simulate_years 80 450 10 20 40 Hd) as H. simpl in H.
  destruct H as (Hlen & _ & _ & _ & _ & _ & Hfirst & Hlast & _).
  split; [exact Hd |]. split; [exact Hlen |]. split; [exact Hfirst |].
  exact Hlast.
Defined.

(** C3.  On the slider domain (where [co2_ppm >= 280]) the [temp_anomaly_C]
    column returned by [simulate] is non-decreasing in the offset: for all
    offsets [i < j] of the frame, the value at [i] is at most the value at
    [j]. *)
Theorem simulate_temp_monotone
    (years co2_ppm rainfall_change_pct green_infra_pct urbanization_pct : Z)
    (i j : nat) (ti tj : R) :
  in_domain years co2_ppm rainfall_change_pct green_infra_pct urbanization_pct ->
  (i < j)%nat ->
  temp_anomaly_C (simulate years co2_ppm rainfall_change_pct green_infra_pct
                           urbanization_pct) !! i = Some ti ->
  temp_anomaly_C (simulate years co2_ppm rainfall_change_pct green_infra_pct
                           urbanization_pct) !! j = Some tj ->
  (ti <= tj)%R.
Proof.
  intros (_ & [Hc _] & _) Hij Hi Hj.
  apply simulate_temp_inv in Hi, Hj. subst ti tj.
  apply spec_tempSeries_mono; [done | lia].
Qed.

Lemma simulate_temp_monotone_witness :
  in_domain 80 450 10 20 40 /\ (0 < 80)%nat /\
  (spec_tempSeries 450 0 <= spec_tempSeries 450 80)%R.
Proof.
  assert (Hd : in_domain 80 450 10 20 40) by (unfold in_domain; lia).
  assert (Hij : (0 < 80)%nat) by lia.
  split; [exact Hd |]. split; [exact Hij |].
  apply (simulate_temp_monotone 80 450 10 20 40 0 80 _ _ Hd Hij).
  - apply simulate_temp_lookup. lia.
  - apply simulate_temp_lookup. lia.
Defined.

(** C4.  On the slider domain every flood risk and every drought risk of the
    frame returned by [simulate] lies in the half-open interval [0, 100): at
    least 0 and strictly below 100. *)
Theorem simulate_risks_in_range
    (years co2_ppm rainfall_change_pct green_infra_pct urbanization_pct : Z) :
  in_domain years co2_ppm rainfall_change_pct green_infra_pct urbanization_pct ->
  forall (i : nat) (r : Row),
    iloc (simulate years co2_ppm rainfall_change_pct green_infra_pct
                   urbanization_pct) i = Some r ->
    (0 <= r_flood r < 100)%R /\ (0 <= r_drought r < 100)%R.
Proof.
  intros (_ & [Hc _] & Hr & Hg & Hu) i r Hrow. unfold iloc in Hrow.
  destruct (year _ !! i) as [y|]; [| done].
  destruct (temp_anomaly_C _ !! i) as [t|]; [| done].
  destruct (flood_risk _ !! i) as [f|] eqn:Hf; [| done].
  destruct (drought_risk _ !! i) as [d|] eqn:Hd; [| done].
  injection Hrow as <-. simpl.
  apply simulate_flood_inv in Hf. apply simulate_drought_inv in Hd. subst f d.
  split; [by apply spec_floodRisk_range | by apply spec_droughtRisk_range].
Qed.

Lemma simulate_risks_in_range_witness :
  in_domain 80 450 10 20 40 /\
  (0 <= spec_floodRisk 450 10 20 40 80 < 100)%R /\
  (0 <= spec_droughtRisk 450 10 20 80 < 100)%R.
Proof.
  assert (Hd : in_domain 80 450 10 20 40) by (unfold in_domain; lia).
  split; [exact Hd |].
  refine (simulate_risks_in_range 80 450 10 20 40 Hd 80
            (mkRow _ _ _ _) _).
  apply simulate_iloc. lia.
Defined.

(** C5.  With the challenge enabled, the block is a two-state machine on the
    won flag.  If the final flood risk and the final drought risk are both at
    or below their targets, the flag is true afterwards and [st.balloons()]
    runs once if the flag was false before and not at all if it was true.  If
    either risk is above its target the flag is set to false and there are no
    balloons.  Running the block again on the session it leaves, with the
    same values, changes nothing and shows no balloons.  The block writes no
    other entry.  The targets are those of the difficulty the session holds:
    55/55 for Easy, 40/40 for Medium and 30/30 for Hard. *)
Theorem challenge_state_machine (s : session) (flood_val drought_val : R)
    (target_flood target_drought : Z) :
  challenge_on s = true ->
  let status :=
    challenge_status s flood_val drought_val target_flood target_drought in
  ((flood_val <= IZR target_flood)%R /\ (drought_val <= IZR target_drought)%R ->
   challenge_won status.1 = true /\
   status.1 = (if challenge_won s then s
               else <["challenge_won" := VBool true]> s) /\
   count_balloons status.2 = (if challenge_won s then 0 else 1)%nat) /\
  (~ ((flood_val <= IZR target_flood)%R /\
      (drought_val <= IZR target_drought)%R) ->
   status.1 = <["challenge_won" := VBool false]> s /\
   challenge_won status.1 = false /\
   count_balloons status.2 = 0%nat) /\
  (challenge_on status.1 = true /\
   (challenge_status status.1 flood_val drought_val target_flood
                     target_drought).1 = status.1 /\
   count_balloons
     (challenge_status status.1 flood_val drought_val target_flood
                       target_drought).2 = 0%nat) /\
  (forall k : string, k <> "challenge_won" -> status.1 !! k = s !! k) /\
  (forall d : string,
     s !! "difficulty_choice" = Some (VStr d) ->
     difficulty_targets s = DIFFICULTY_TARGETS !! d) /\
  DIFFICULTY_TARGETS !! "Easy" = Some (55, 55)%Z /\
  DIFFICULTY_TARGETS !! "Medium" = Some (40, 40)%Z /\
  DIFFICULTY_TARGETS !! "Hard" = Some (30, 30)%Z.
Proof.
  intros Hon status.
  destruct (challenge_status_enabled s flood_val drought_val target_flood
              target_drought Hon) as (boxes & Hboxes & Hst).
  fold status in Hst.
  assert (Hframe : forall k : string,
             k <> "challenge_won" -> status.1 !! k = s !! k).
  { intros k Hk. by apply challenge_status_frame. }
  assert (Hon' : challenge_on status.1 = true).
  { unfold challenge_on, get in *. by rewrite Hframe. }
  destruct (challenge_status_enabled status.1 flood_val drought_val
              target_flood target_drought Hon') as (boxes' & Hboxes' & Hst').
  assert (Hok : Rleb flood_val (IZR target_flood)
                && Rleb drought_val (IZR target_drought) = true
                <-> (flood_val <= IZR target_flood)%R /\
                    (drought_val <= IZR target_drought)%R).
  { by rewrite andb_true_iff, !Rleb_true. }
  assert (Htargets : DIFFICULTY_TARGETS !! "Easy" = Some (55, 55)%Z /\
                     DIFFICULTY_TARGETS !! "Medium" = Some (40, 40)%Z /\
                     DIFFICULTY_TARGETS !! "Hard" = Some (30, 30)%Z).
  { by vm_compute. }
  assert (Hdiff : forall d : string,
             s !! "difficulty_choice" = Some (VStr d) ->
             difficulty_targets s = DIFFICULTY_TARGETS !! d).
  { intros d Hd. unfold difficulty_targets. by rewrite Hd. }
  destruct (Rleb flood_val (IZR target_flood)
            && Rleb drought_val (IZR target_drought)) eqn:Hcmp.
  - assert (Hwon' : challenge_won status.1 = true).
    { rewrite Hst. destruct (challenge_won s) eqn:Hwon; cbn [fst]; [done |].
      unfold challenge_won. by rewrite get_insert_eq. }
    rewrite Hwon' in Hst'.
    split.
    { intros _. split; [done |]. split.
      - rewrite Hst. by destruct (challenge_won s).
      - rewrite Hst. destruct (challenge_won s); cbn [snd]; [done |].
        by rewrite count_balloons_app, Hboxes. }
    split.
    { intros Hnot. exfalso. apply Hnot. by apply Hok. }
    split.
    { split; [done |]. by rewrite Hst'. }
    split; [done |]. split; [exact Hdiff | exact Htargets].
  - split.
    { intros Hboth. apply Hok in Hboth. done. }
    split.
    { intros _. rewrite Hst. cbn [fst snd]. split; [done |].
      split; [| done]. unfold challenge_won. by rewrite get_insert_eq. }
    split.
    { split; [done |]. rewrite Hst'. cbn [fst snd]. split; [| done].
      rewrite Hst. cbn [fst]. apply insert_insert_eq. }
    split; [done |]. split; [exact Hdiff | exact Htargets].
Qed.

Lemma challenge_state_machine_witness :
  challenge_on challenge_session = true /\
  challenge_won challenge_session = false /\
  challenge_won (challenge_status challenge_session 38 35 40 40).1 = true /\
  count_balloons (challenge_status challenge_session 38 35 40 40).2 = 1%nat /\
  count_balloons
    (challenge_status (challenge_status challenge_session 38 35 40 40).1
                      38 35 40 40).2 = 0%nat.
Proof.
  assert (Hon : challenge_on challenge_session = true) by reflexivity.
  destruct (challenge_state_machine challenge_session 38 35 40 40 Hon)
    as (Hwin & _ & (_ & _ & Hagain) & _).
  destruct Hwin as (Hwon & _ & Hcount); [split; lra |].
  split; [exact Hon |]. split; [reflexivity |].
  split; [exact Hwon |]. split; [exact Hcount | exact Hagain].
Defined.

(** C6.  With the comparison toggle on, the block compares the two slots as
    the session holds them.  When both hold a snapshot (whose frames have a
    last row), it shows the three end-of-horizon differences
    B minus A: warming, flood risk and drought risk.  When either slot is
    empty ([None], or never set) it shows the "save two scenarios" message
    and no difference.  On slots as the script writes them ([slots_ok], kept
    by every pass) the comparison never fails. *)
Theorem compare_deltas_or_incomplete (s : session) (A B : value) :
  compare_on s = true ->
  get_none s "scenario_A" = A ->
  get_none s "scenario_B" = B ->
  scenario_comparison s = compare A B /\
  (A = VNone \/ B = VNone -> compare A B = Some [incomplete_comparison]) /\
  (s !! "scenario_A" = None \/ s !! "scenario_B" = None ->
   compare A B = Some [incomplete_comparison]) /\
  (forall (pA pB : Params value) (dfA dfB : DataFrame) (tA fA dA tB fB dB : R),
     A = VScenario pA dfA -> B = VScenario pB dfB ->
     last (temp_anomaly_C dfA) = Some tA -> last (flood_risk dfA) = Some fA ->
     last (drought_risk dfA) = Some dA ->
     last (temp_anomaly_C dfB) = Some tB -> last (flood_risk dfB) = Some fB ->
     last (drought_risk dfB) = Some dB ->
     compare A B
     = Some [ StMetric "Δ Warming (A → B)" (tB - tA)%R;
              StMetric "Δ Flood risk (A → B)" (fB - fA)%R;
              StMetric "Δ Drought risk (A → B)" (dB - dA)%R ]) /\
  (slots_ok s -> is_Some (compare A B)).
Proof.
  intros Hon HA HB.
  assert (Hempty : A = VNone \/ B = VNone ->
                   compare A B = Some [incomplete_comparison]).
  { intros [-> | ->]; unfold compare; simpl; [done |].
    by rewrite orb_true_r. }
  split; [| split; [done | split]].
  - unfold scenario_comparison. fold (compare_on s). by rewrite Hon, HA, HB.
  - intros [Hs | Hs]; apply Hempty; [left | right];
      [rewrite <- HA | rewrite <- HB]; unfold get_none, get; by rewrite Hs.
  - split.
    + intros pA pB dfA dfB tA fA dA tB fB dB -> -> HtA HfA HdA HtB HfB HdB.
      unfold compare. cbn [truthy negb orb scenario_df]. option_step.
      by rewrite HtA, HfA, HdA, HtB, HfB, HdB.
    + intros [HokA HokB]. rewrite HA in HokA. rewrite HB in HokB.
      by apply compare_slots_ok.
Qed.

Lemma compare_deltas_or_incomplete_witness :
  compare_on compare_session = true /\
  scenario_comparison compare_session
  = Some [ StMetric "Δ Warming (A → B)"
                    (spec_tempSeries 650 80 - spec_tempSeries 450 80)%R;
           StMetric "Δ Flood risk (A → B)"
                    (spec_floodRisk 650 10 10 65 80
                     - spec_floodRisk 450 10 20 40 80)%R;
           StMetric "Δ Drought risk (A → B)"
                    (spec_droughtRisk 650 10 10 80
                     - spec_droughtRisk 450 10 20 80)%R ] /\
  compare_on half_compare_session = true /\
  scenario_comparison half_compare_session = Some [incomplete_comparison].
Proof.
  assert (Hon : compare_on compare_session = true) by reflexivity.
  assert (Hon' : compare_on half_compare_session = true) by reflexivity.
  destruct (compare_deltas_or_incomplete compare_session
              scenario_default scenario_business Hon eq_refl eq_refl)
    as (Hblock & _ & _ & Hdeltas & _).
  destruct (compare_deltas_or_incomplete half_compare_session
              scenario_default VNone Hon' eq_refl eq_refl)
    as (Hblock' & Hempty & _).
  destruct (simulate_last 80 450 10 20 40) as (HtA & HfA & HdA); [lia |].
  destruct (simulate_last 80 650 10 10 65) as (HtB & HfB & HdB); [lia |].
  split; [exact Hon |].
  split; [rewrite Hblock;
          exact (Hdeltas _ _ _ _ _ _ _ _ _ _ eq_refl eq_refl
                         HtA HfA HdA HtB HfB HdB) |].
  split; [exact Hon' |].
  rewrite Hblock'. apply Hempty. by right.
Defined.

(** C7.  The handler of the reset button, from any session, leaves the
    documented defaults in every field: horizon 80, CO2 450, rainfall 10,
    green 20, urbanization 40, mode Standard, difficulty Medium, challenge
    off, comparison off, won flag false and both snapshot slots empty
    ([None]).  A click on the button runs exactly that handler (after the
    seeding of lines 72-74) and reruns, and the rerun leaves the session so
    and shows the page of the default scenario. *)
Theorem reset_restores_defaults (s : session) :
  holds_parameters (reset_to_default s) 80 450 10 20 40 /\
  reset_to_default s !! "mode" = Some (VStr "Standard") /\
  reset_to_default s !! "difficulty_choice" = Some (VStr "Medium") /\
  reset_to_default s !! "challenge_on" = Some (VBool false) /\
  reset_to_default s !! "compare_on" = Some (VBool false) /\
  reset_to_default s !! "challenge_won" = Some (VBool false) /\
  reset_to_default s !! "scenario_A" = Some VNone /\
  reset_to_default s !! "scenario_B" = Some VNone /\
  script (Some BtnReset) s = Some (Rerun (reset_to_default (seed_defaults s))) /\
  interaction (Some BtnReset) s
  = Some (Done (reset_to_default (seed_defaults s))
            (top_metrics (spec_tempSeries 450 80)
                         (spec_floodRisk 450 10 20 40 80)
                         (spec_droughtRisk 450 10 20 80)
             ++ [StDataframe (simulate 80 450 10 20 40)])).
Proof.
  assert (Hlook : forall k v,
             (k, v) ∈ DEFAULTS -> reset_to_default s !! k = Some v)
    by (intros k v; apply lookup_reset_to_default).
  split.
  { unfold holds_parameters. repeat split; apply Hlook; entry_in. }
  repeat (split; [apply Hlook; entry_in |]).
  split; [reflexivity | apply interaction_reset].
Qed.

(** C8.  When the mode entry is "Kids (simple)" at the mode branch, the
    branch stores 45 under [urbanization_pct], whatever was stored there,
    and changes no other entry; the simulation that follows is computed with
    urbanization 45 and with the four other parameters as stored.  In a pass
    of the script that reaches the end of the page this is the frame shown,
    and the session it leaves has [urbanization_pct = 45]. *)
Theorem kids_mode_forces_urbanization (s : session) :
  s !! "mode" = Some (VStr "Kids (simple)") ->
  mode_branch s = Some (<["urbanization_pct" := VInt 45]> s) /\
  <["urbanization_pct" := VInt 45]> s !! "urbanization_pct" = Some (VInt 45) /\
  (forall k : string,
     k <> "urbanization_pct" ->
     <["urbanization_pct" := VInt 45]> s !! k = s !! k) /\
  run_simulation (<["urbanization_pct" := VInt 45]> s)
  = (years ← s !! "years" ≫= as_int;
     co2_ppm ← s !! "co2_ppm" ≫= as_int;
     rainfall_change_pct ← s !! "rainfall_change_pct" ≫= as_int;
     green_infra_pct ← s !! "green_infra_pct" ≫= as_int;
     Some (simulate years co2_ppm rainfall_change_pct green_infra_pct 45)) /\
  (forall (click : option button) (s0 s' : session) (out : list ui),
     seed_defaults s0 = s ->
     script click s0 = Some (Done s' out) ->
     exists years co2_ppm rainfall_change_pct green_infra_pct,
       s !! "years" ≫= as_int = Some years /\
       s !! "co2_ppm" ≫= as_int = Some co2_ppm /\
       s !! "rainfall_change_pct" ≫= as_int = Some rainfall_change_pct /\
       s !! "green_infra_pct" ≫= as_int = Some green_infra_pct /\
       StDataframe (simulate years co2_ppm rainfall_change_pct
                             green_infra_pct 45) ∈ out /\
       s' !! "urbanization_pct" = Some (VInt 45)).
Proof.
  intros Hm. split; [by apply mode_branch_kids |].
  split; [apply lookup_insert_eq |].
  split; [intros k Hk; by apply lookup_insert_ne |].
  split; [apply run_simulation_insert_urbanization |].
  intros click s0 s' out Hs0 Hrun.
  apply script_done_inv in Hrun
    as (s1 & targets & df & fv & dv & tv & boxes & cmp
        & Hmode & _ & Hdf & _ & _ & _ & Hstatus & _ & ->).
  rewrite Hs0, (mode_branch_kids s Hm) in Hmode. injection Hmode as <-.
  rewrite run_simulation_insert_urbanization in Hdf.
  destruct (s !! "years" ≫= as_int) as [y|]; [simpl in Hdf | done].
  destruct (s !! "co2_ppm" ≫= as_int) as [c|]; [simpl in Hdf | done].
  destruct (s !! "rainfall_change_pct" ≫= as_int) as [r|];
    [simpl in Hdf | done].
  destruct (s !! "green_infra_pct" ≫= as_int) as [g|]; [simpl in Hdf | done].
  injection Hdf as <-.
  exists y, c, r, g. repeat split; try done.
  - rewrite !elem_of_app. do 3 right. apply list_elem_of_here.
  - replace s' with
      (challenge_status (<["urbanization_pct" := VInt 45]> s) fv dv
                        targets.1 targets.2).1 by (by rewrite Hstatus).
    rewrite challenge_status_frame by done. apply lookup_insert_eq.
Qed.

Lemma kids_mode_forces_urbanization_witness :
  kids_session !! "mode" = Some (VStr "Kids (simple)") /\
  kids_session !! "urbanization_pct" = Some (VInt 90) /\
  mode_branch kids_session
  = Some (<["urbanization_pct" := VInt 45]> kids_session) /\
  run_simulation (<["urbanization_pct" := VInt 45]> kids_session)
  = Some (simulate 80 450 10 20 45) /\
  (exists s' out,
     script None kids_session = Some (Done s' out) /\
     s' !! "urbanization_pct" = Some (VInt 45)).
Proof.
  assert (Hm : kids_session !! "mode" = Some (VStr "Kids (simple)"))
    by reflexivity.
  destruct (kids_mode_forces_urbanization kids_session Hm)
    as (Hbranch & _ & _ & Hsim & Hpass).
  split; [exact Hm |]. split; [reflexivity |]. split; [exact Hbranch |].
  split; [rewrite Hsim; reflexivity |].
  destruct (Hpass None kids_session _ _ eq_refl script_kids_session)
    as (y & c & r & g & _ & _ & _ & _ & _ & Hu).
  eexists _, _. split; [apply script_kids_session | exact Hu].
Defined.

(** C9.  Each quick-scenario button installs its five parameters
    (Business 80/650/10/10/65, Green 80/380/5/70/30, Urban 80/520/15/15/85),
    sets the mode to Standard and the won flag to false, and leaves every
    other entry as it was, in particular the challenge toggle, the
    difficulty, the comparison toggle and both snapshot slots; a click on the
    button applies that update (after the seeding of lines 72-74) and
    reruns. *)
Theorem presets_install_and_frame (s : session) :
  (holds_parameters (update s preset_business) 80 650 10 10 65 /\
   holds_parameters (update s preset_green) 80 380 5 70 30 /\
   holds_parameters (update s preset_urban) 80 520 15 15 85) /\
  (forall bundle, bundle ∈ [preset_business; preset_green; preset_urban] ->
     update s bundle !! "mode" = Some (VStr "Standard") /\
     update s bundle !! "challenge_won" = Some (VBool false) /\
     update s bundle !! "challenge_on" = s !! "challenge_on" /\
     update s bundle !! "difficulty_choice" = s !! "difficulty_choice" /\
     update s bundle !! "compare_on" = s !! "compare_on" /\
     update s bundle !! "scenario_A" = s !! "scenario_A" /\
     update s bundle !! "scenario_B" = s !! "scenario_B" /\
     (forall k : string, k ∉ bundle.*1 -> update s bundle !! k = s !! k)) /\
  script (Some BtnBusiness) s
  = Some (Rerun (update (seed_defaults s) preset_business)) /\
  script (Some BtnGreen) s
  = Some (Rerun (update (seed_defaults s) preset_green)) /\
  script (Some BtnUrban) s
  = Some (Rerun (update (seed_defaults s) preset_urban)).
Proof.
  split; [| split; [| done]].
  - split; [| split]; eapply preset_update; reflexivity.
  - intros bundle Hb.
    assert (exists y c r g u, bundle
              = [ ("mode", VStr "Standard"); ("years", VInt y);
                  ("co2_ppm", VInt c); ("rainfall_change_pct", VInt r);
                  ("green_infra_pct", VInt g); ("urbanization_pct", VInt u);
                  ("challenge_won", VBool false) ]) as (y & c & r & g & u & Hshape).
    { repeat (apply elem_of_cons in Hb as [-> | Hb];
              [by do 5 eexists |]).
      by apply elem_of_nil in Hb. }
    destruct (preset_update bundle s y c r g u Hshape)
      as (_ & Hm & Hw & Hfr & Hon & Hdi & Hcm & HA & HB).
    done.
Qed.

Lemma presets_install_and_frame_witness :
  preset_green ∈ [preset_business; preset_green; preset_urban] /\
  holds_parameters (update kids_session preset_green) 80 380 5 70 30 /\
  update kids_session preset_green !! "mode" = Some (VStr "Standard") /\
  update kids_session preset_green !! "challenge_won" = Some (VBool false) /\
  update kids_session preset_green !! "compare_on"
  = kids_session !! "compare_on".
Proof.
  assert (Hin : preset_green ∈ [preset_business; preset_green; preset_urban])
    by (apply list_elem_of_further, list_elem_of_here).
  destruct (presets_install_and_frame kids_session)
    as ((_ & Hgreen & _) & Hframe & _).
  destruct (Hframe preset_green Hin) as (Hmode & Hwon & _ & _ & Hcmp & _).
  split; [exact Hin |]. split; [exact Hgreen |]. split; [exact Hmode |].
  split; [exact Hwon | exact Hcmp].
Defined.

(** C10.  With the challenge toggle off the status block evaluates nothing:
    it returns the session as it is and shows nothing, so a pass of the
    script that reaches the end of the page leaves the won flag as it found
    it and shows no balloons.  Hence the flag can stay true while the final
    flood risk is above the target: it does so on a session with a win
    recorded, the toggle off and the sliders at 650 ppm, green 10,
    urbanization 65 (final flood risk above 40, the Medium target). *)
Theorem challenge_disabled_keeps_won :
  (forall (s : session) (flood_val drought_val : R)
          (target_flood target_drought : Z),
     challenge_on s = false ->
     challenge_status s flood_val drought_val target_flood target_drought
     = (s, [])) /\
  (forall (click : option button) (s0 s' : session) (out : list ui),
     challenge_on s0 = false ->
     script click s0 = Some (Done s' out) ->
     s' !! "challenge_won" = seed_defaults s0 !! "challenge_won" /\
     challenge_won s' = challenge_won s0 /\
     count_balloons out = 0%nat) /\
  (exists (s0 s' : session) (out : list ui) (flood_val : R),
     challenge_on s0 = false /\ challenge_won s0 = true /\
     script None s0 = Some (Done s' out) /\
     challenge_won s' = true /\
     difficulty_targets s' = Some (40, 40)%Z /\
     StMetric "End-of-horizon flood risk (0–100)" flood_val ∈ out /\
     (IZR 40 < flood_val)%R).
Proof.
  split; [exact challenge_status_disabled |]. split.
  - intros click s0 s' out Hoff Hrun.
    apply script_done_inv in Hrun
      as (s1 & targets & df & fv & dv & tv & boxes & cmp
          & Hmode & _ & _ & _ & _ & _ & Hstatus & Hcmp & ->).
    assert (Hoff1 : challenge_on s1 = false).
    { rewrite <- Hoff, <- (challenge_on_seed_defaults s0).
      unfold challenge_on, get. by rewrite (mode_branch_frame _ _ _ Hmode). }
    rewrite challenge_status_disabled in Hstatus by done.
    injection Hstatus as <- <-.
    assert (Hwon : s1 !! "challenge_won" = seed_defaults s0 !! "challenge_won")
      by (by apply (mode_branch_frame _ _ _ Hmode)).
    split; [done |]. split.
    + rewrite <- (challenge_won_seed_defaults s0).
      unfold challenge_won, get. by rewrite Hwon.
    + rewrite !count_balloons_app.
      by rewrite (count_balloons_scenario_comparison _ _ Hcmp).
  - exists stale_win_session, stale_win_session. eexists. eexists.
    split; [reflexivity |]. split; [reflexivity |].
    split; [apply script_stale_win_session |].
    split; [reflexivity |]. split; [reflexivity |].
    split.
    + apply elem_of_app. left. unfold top_metrics.
      apply list_elem_of_further, list_elem_of_here.
    + pose proof spec_floodRisk_business_high. lra.
Qed.

Lemma challenge_disabled_keeps_won_witness :
  challenge_on stale_win_session = false /\
  challenge_won stale_win_session = true /\
  (exists out,
     script None stale_win_session = Some (Done stale_win_session out) /\
     count_balloons out = 0%nat) /\
  challenge_status stale_win_session (spec_floodRisk 650 10 10 65 80)
                   (spec_droughtRisk 650 10 10 80) 40 40
  = (stale_win_session, []).
Proof.
  assert (Hoff : challenge_on stale_win_session = false) by reflexivity.
  destruct challenge_disabled_keeps_won as (Hblock & Hpass & _).
  split; [exact Hoff |]. split; [reflexivity |]. split.
  - eexists. split; [apply script_stale_win_session |].
    exact (proj2 (proj2 (Hpass None stale_win_session stale_win_session _
                           Hoff script_stale_win_session))).
  - exact (Hblock stale_win_session _ _ 40%Z 40%Z Hoff).
Defined.

(** * Further properties of the code *)

(** ** The model: bounds, monotonicity, sensitivity *)

Section ClosedFormFacts.
Local Open Scope R_scope.

Lemma saturating_mono (y y' : R) :
  y' <= y -> 100 * (1 - exp y) <= 100 * (1 - exp y').
Proof. intros H%exp_le_mono. lra. Qed.




Lemma spec_tempSeries_mono_co2 (c c' : Z) (i : nat) :
  (0 < c)%Z -> (c <= c')%Z -> spec_tempSeries c i <= spec_tempSeries c' i.
Proof.
  intros Hc%IZR_lt Hcc%IZR_le. unfold spec_tempSeries.
  assert (ln (IZR c / 280) <= ln (IZR c' / 280)).
  { destruct Hcc as [Hlt | ->]; [| lra].
    left. apply ln_increasing; lra. }
  assert (exp (- INR i / 25) <= 1).
  { apply exp_nonpos_le_1. pose proof (pos_INR i). lra. }
  nra.
Qed.

(** The flood risk as a function of the runoff index and the warming. *)
Lemma flood_mono (ri ri' t t' : R) :
  0 <= ri -> ri <= ri' -> 0 <= t -> t <= t' ->
  100 * (1 - exp (-0.9 * ri * (1 + 0.08 * t)))
  <= 100 * (1 - exp (-0.9 * ri' * (1 + 0.08 * t'))).
Proof. intros. apply saturating_mono. nra. Qed.

(** The drought risk as a function of the warming, the rainfall factor and
    the green factor. *)
Lemma drought_mono (t t' rf rf' gf gf' : R) :
  0 <= t -> t <= t' -> 0 < rf' -> rf' <= rf -> 0 <= gf -> gf <= gf' ->
  100 * (1 - exp (-0.8 * ((1 + 0.18 * t) / rf) * gf))
  <= 100 * (1 - exp (-0.8 * ((1 + 0.18 * t') / rf') * gf')).
Proof.
  intros Ht Htt Hrf' Hrf Hgf Hgg. apply saturating_mono.
  assert (Hinv : / rf <= / rf') by (apply Rinv_le_contravar; lra).
  assert (0 < / rf) by (apply Rinv_0_lt_compat; lra).
  unfold Rdiv.
  assert (H1 : (1 + 0.18 * t) * / rf <= (1 + 0.18 * t') * / rf').
  { apply Rmult_le_compat; lra. }
  assert (H2 : 0 <= (1 + 0.18 * t) * / rf) by (apply Rmult_le_pos; lra).
  nra.
Qed.

Lemma spec_runoffIndex_mono (r r' g g' u u' : Z) :
  (-100 <= r <= r')%Z -> (0 <= g' <= g)%Z -> (g <= 100)%Z ->
  (0 <= u <= u')%Z ->
  0 <= spec_runoffIndex r g u <= spec_runoffIndex r' g' u'.
Proof.
  intros [Hr Hrr] [Hg' Hgg] Hg [Hu Huu]. unfold spec_runoffIndex.
  apply IZR_le in Hr, Hrr, Hg', Hgg, Hg, Hu, Huu.
  assert (A : 0 <= 1 + IZR r / 100 <= 1 + IZR r' / 100) by lra.
  assert (B : 0 <= 0.6 + 1.2 * IZR u / 100 <= 0.6 + 1.2 * IZR u' / 100) by lra.
  assert (C : 0 <= 1 - 0.55 * IZR g / 100 <= 1 - 0.55 * IZR g' / 100) by lra.
  split.
  - apply Rmult_le_pos; [apply Rmult_le_pos |]; lra.
  - apply Rmult_le_compat; try lra.
    + apply Rmult_le_pos; lra.
    + apply Rmult_le_compat; lra.
Qed.

End ClosedFormFacts.



(** X2.  On the slider domain the flood risk and the drought risk never
    decrease from one year of the frame to a later one. *)
Theorem simulate_risks_monotone
    (years co2_ppm rainfall_change_pct green_infra_pct urbanization_pct : Z)
    (i j : nat) (ri rj : Row) :
  in_domain years co2_ppm rainfall_change_pct green_infra_pct urbanization_pct ->
  (i <= j)%nat ->
  iloc (simulate years co2_ppm rainfall_change_pct green_infra_pct
                 urbanization_pct) i = Some ri ->
  iloc (simulate years co2_ppm rainfall_change_pct green_infra_pct
                 urbanization_pct) j = Some rj ->
  (r_flood ri <= r_flood rj)%R /\ (r_drought ri <= r_drought rj)%R.
Proof.
  intros (_ & [Hc _] & Hr & Hg & Hu) Hij Hi Hj.
  unfold iloc in Hi, Hj.
  destruct (year _ !! i); [| done]. destruct (temp_anomaly_C _ !! i); [| done].
  destruct (flood_risk _ !! i) as [fi|] eqn:Hfi; [| done].
  destruct (drought_risk _ !! i) as [di|] eqn:Hdi; [| done].
  destruct (year _ !! j); [| done]. destruct (temp_anomaly_C _ !! j); [| done].
  destruct (flood_risk _ !! j) as [fj|] eqn:Hfj; [| done].
  destruct (drought_risk _ !! j) as [dj|] eqn:Hdj; [| done].
  injection Hi as <-. injection Hj as <-. cbn [r_flood r_drought].
  apply simulate_flood_inv in Hfi, Hfj. apply simulate_drought_inv in Hdi, Hdj.
  subst fi fj di dj.
  pose proof (spec_tempSeries_nonneg co2_ppm i Hc) as Ht.
  pose proof (spec_tempSeries_mono co2_ppm i j Hc Hij) as Htt.
  pose proof (spec_runoffIndex_nonneg _ _ _ Hr Hg Hu) as Hri.
  apply IZR_bounds in Hr, Hg.
  split.
  - unfold spec_floodRisk. apply flood_mono; lra.
  - unfold spec_droughtRisk. apply drought_mono; lra.
Qed.

Lemma simulate_risks_monotone_witness :
  in_domain 80 450 10 20 40 /\ (0 <= 80)%nat /\
  (spec_floodRisk 450 10 20 40 0 <= spec_floodRisk 450 10 20 40 80)%R /\
  (spec_droughtRisk 450 10 20 0 <= spec_droughtRisk 450 10 20 80)%R.
Proof.
  assert (Hd : in_domain 80 450 10 20 40) by (unfold in_domain; lia).
  assert (Hij : (0 <= 80)%nat) by lia.
  split; [exact Hd |]. split; [exact Hij |].
  refine (simulate_risks_monotone 80 450 10 20 40 0 80
            (mkRow _ _ _ _) (mkRow _ _ _ _) Hd Hij _ _).
  - apply simulate_iloc. lia.
  - apply simulate_iloc. lia.
Defined.

(** X3.  Sensitivity of the flood risk.  For two parameter sets of the slider
    domain, the second with at least as much CO2, rainfall change and
    urbanization and at most as much green infrastructure, the flood risk of
    the second is at least that of the first in every year both frames
    have (the horizons may differ). *)
Theorem simulate_flood_sensitivity
    (y c r g u y' c' r' g' u' : Z) (i : nat) (f f' : R) :
  in_domain y c r g u -> in_domain y' c' r' g' u' ->
  (c <= c')%Z -> (r <= r')%Z -> (g' <= g)%Z -> (u <= u')%Z ->
  flood_risk (simulate y c r g u) !! i = Some f ->
  flood_risk (simulate y' c' r' g' u') !! i = Some f' ->
  (f <= f')%R.
Proof.
  intros (_ & [Hc _] & Hr & Hg & Hu) (_ & [Hc' _] & Hr' & Hg' & Hu')
         Hcc Hrr Hgg Huu Hf Hf'.
  apply simulate_flood_inv in Hf, Hf'. subst f f'. unfold spec_floodRisk.
  pose proof (spec_tempSeries_nonneg c i Hc).
  pose proof (spec_tempSeries_mono_co2 c c' i ltac:(lia) Hcc).
  destruct (spec_runoffIndex_mono r r' g g' u u') as [? ?]; try lia.
  apply flood_mono; lra.
Qed.

Lemma simulate_flood_sensitivity_witness :
  in_domain 80 380 5 70 30 /\ in_domain 80 650 10 10 65 /\
  (380 <= 650)%Z /\ (5 <= 10)%Z /\ (10 <= 70)%Z /\ (30 <= 65)%Z /\
  (spec_floodRisk 380 5 70 30 80 <= spec_floodRisk 650 10 10 65 80)%R.
Proof.
  assert (Hd : in_domain 80 380 5 70 30) by (unfold in_domain; lia).
  assert (Hd' : in_domain 80 650 10 10 65) by (unfold in_domain; lia).
  split; [exact Hd |]. split; [exact Hd' |].
  do 4 (split; [lia |]).
  refine (simulate_flood_sensitivity 80 380 5 70 30 80 650 10 10 65 80 _ _
            Hd Hd' _ _ _ _ _ _); try lia.
  - apply simulate_flood_lookup. lia.
  - apply simulate_flood_lookup. lia.
Defined.

(** X4.  Sensitivity of the drought risk.  For two parameter sets of the
    slider domain, the second with at least as much CO2 and at most as much
    rainfall change and green infrastructure, the drought risk of the second
    is at least that of the first in every year both frames have.
    Urbanization plays no part: the two sets may differ in it freely. *)
Theorem simulate_drought_sensitivity
    (y c r g u y' c' r' g' u' : Z) (i : nat) (d d' : R) :
  in_domain y c r g u -> in_domain y' c' r' g' u' ->
  (c <= c')%Z -> (r' <= r)%Z -> (g' <= g)%Z ->
  drought_risk (simulate y c r g u) !! i = Some d ->
  drought_risk (simulate y' c' r' g' u') !! i = Some d' ->
  (d <= d')%R.
Proof.
  intros (_ & [Hc _] & Hr & Hg & _) (_ & [Hc' _] & Hr' & Hg' & _)
         Hcc Hrr Hgg Hd Hd'.
  apply simulate_drought_inv in Hd, Hd'. subst d d'. unfold spec_droughtRisk.
  pose proof (spec_tempSeries_nonneg c i Hc).
  pose proof (spec_tempSeries_mono_co2 c c' i ltac:(lia) Hcc).
  apply IZR_le in Hrr, Hgg. apply IZR_bounds in Hr, Hr', Hg, Hg'.
  apply drought_mono; lra.
Qed.

Lemma simulate_drought_sensitivity_witness :
  in_domain 80 380 5 70 30 /\ in_domain 80 650 (-20) 10 0 /\
  (380 <= 650)%Z /\ (-20 <= 5)%Z /\ (10 <= 70)%Z /\
  (spec_droughtRisk 380 5 70 80 <= spec_droughtRisk 650 (-20) 10 80)%R.
Proof.
  assert (Hd : in_domain 80 380 5 70 30) by (unfold in_domain; lia).
  assert (Hd' : in_domain 80 650 (-20) 10 0) by (unfold in_domain; lia).
  split; [exact Hd |]. split; [exact Hd' |].
  do 3 (split; [lia |]).
  refine (simulate_drought_sensitivity 80 380 5 70 30 80 650 (-20) 10 0 80 _ _
            Hd Hd' _ _ _ _ _); try lia.
  - apply simulate_drought_lookup. lia.
  - apply simulate_drought_lookup. lia.
Defined.





(** ** Evaluating a pass *)

Lemma clicked_Some (b b' : button) :
  clicked (Some b) b' = bool_decide (b = b').
Proof.
  unfold clicked. apply bool_decide_ext. split; [by intros [= ->] | by intros ->].
Qed.

(** The pass from the simulation call on, for a click that does not end it
    in the sidebar. *)
Lemma script_eval (click : option button) (s0 s1 : session) (targets : Z * Z)
    (years co2_ppm rainfall_change_pct green_infra_pct urbanization_pct : Z) :
  (forall b, click = Some b -> early_button b = false) ->
  mode_branch (seed_defaults s0) = Some s1 ->
  difficulty_targets s1 = Some targets ->
  holds_parameters s1 years co2_ppm rainfall_change_pct green_infra_pct
                   urbanization_pct ->
  (0 <= years)%Z ->
  script click s0
  = (let n := Z.to_nat years in
     let df := simulate years co2_ppm rainfall_change_pct green_infra_pct
                        urbanization_pct in
     let temp_val := spec_tempSeries co2_ppm n in
     let flood_val :=
       spec_floodRisk co2_ppm rainfall_change_pct green_infra_pct
                      urbanization_pct n in
     let drought_val :=
       spec_droughtRisk co2_ppm rainfall_change_pct green_infra_pct n in
     if compare_on s1 && clicked click BtnSaveA then
       snap ← snapshot_current s1 df;
       Some (Rerun (<["scenario_A" := snap]> s1))
     else if compare_on s1 && clicked click BtnSaveB then
       snap ← snapshot_current s1 df;
       Some (Rerun (<["scenario_B" := snap]> s1))
     else if compare_on s1 && clicked click BtnClear then
       Some (Rerun (<["scenario_B" := VNone]> (<["scenario_A" := VNone]> s1)))
     else
       let status :=
         challenge_status s1 flood_val drought_val targets.1 targets.2 in
       cmp ← scenario_comparison status.1;
       Some (Done status.1
               (status.2 ++ top_metrics temp_val flood_val drought_val ++ cmp
                  ++ [StDataframe df]))).
Proof.
  intros Hclick Hmode Htargets (Hy & Hc & Hr & Hg & Hu) Hpos.
  destruct (simulate_last years co2_ppm rainfall_change_pct green_infra_pct
              urbanization_pct Hpos) as (Ht & Hf & Hd).
  assert (Hearly : clicked click BtnReset = false /\
                   clicked click BtnBusiness = false /\
                   clicked click BtnGreen = false /\
                   clicked click BtnUrban = false /\
                   clicked click BtnResetChallenge = false).
  { destruct click as [b|]; [| done].
    specialize (Hclick b eq_refl). by destruct b. }
  destruct Hearly as (E1 & E2 & E3 & E4 & E5).
  unfold script. rewrite E1, E2, E3, E4. cbv beta iota zeta.
  rewrite Hmode. option_step. rewrite E5. cbv beta iota.
  rewrite Htargets. option_step.
  unfold run_simulation. rewrite Hy, Hc, Hr, Hg, Hu. option_step.
  rewrite Hf. option_step. rewrite Hd. option_step. rewrite Ht. option_step.
  fold (compare_on s1).
  repeat (match goal with
          | |- (if ?b then _ else _) = _ => destruct b; [done |]
          end).
  by destruct (challenge_status _ _ _ _ _).
Qed.

(** ** The session invariant *)

Lemma lookup_seed_defaults_Some (s : session) (k : string) (v : value) :
  s !! k = Some v -> seed_defaults s !! k = Some v.
Proof. intros Hs. by rewrite lookup_seed_defaults, Hs. Qed.

Lemma seed_defaults_idemp (s : session) :
  seed_defaults (seed_defaults s) = seed_defaults s.
Proof.
  apply map_eq. intros k. rewrite (lookup_seed_defaults (seed_defaults s)).
  destruct (seed_defaults s !! k) eqn:Hk; [done |].
  rewrite lookup_seed_defaults in Hk. by destruct (s !! k).
Qed.

Lemma slots_ok_seed_defaults_inv (s : session) :
  slots_ok (seed_defaults s) -> slots_ok s.
Proof.
  unfold slots_ok, get_none, get. rewrite !lookup_seed_defaults.
  by destruct (s !! "scenario_A"), (s !! "scenario_B").
Qed.

Lemma slider_in_domain (years co2_ppm rainfall_change_pct green_infra_pct
                        urbanization_pct : Z) :
  slider 20 120 5 years -> slider 280 900 10 co2_ppm ->
  slider (-30) 50 1 rainfall_change_pct ->
  slider 0 100 5 green_infra_pct -> slider 0 100 5 urbanization_pct ->
  in_domain years co2_ppm rainfall_change_pct green_infra_pct urbanization_pct.
Proof. unfold slider, in_domain. tauto. Qed.

(** What [session_ok] gives about the seeded session. *)
Lemma session_ok_elim (s0 : session) :
  session_ok s0 ->
  exists m d targets y c r g u,
    seed_defaults s0 !! "mode" = Some (VStr m) /\
    seed_defaults s0 !! "difficulty_choice" = Some (VStr d) /\
    DIFFICULTY_TARGETS !! d = Some targets /\
    holds_parameters (seed_defaults s0) y c r g u /\
    (slider 20 120 5 y /\ slider 280 900 10 c /\ slider (-30) 50 1 r /\
     slider 0 100 5 g /\ slider 0 100 5 u) /\
    slots_ok (seed_defaults s0).
Proof.
  intros [([m Hm] & (d & Hd & [targets Ht]) & _ & Hslots)
          (y & c & r & g & u & Hp & Hs)].
  by exists m, d, targets, y, c, r, g, u.
Qed.

Lemma session_ok_intro (s : session) (m d : string) (y c r g u : Z) :
  seed_defaults s !! "mode" = Some (VStr m) ->
  seed_defaults s !! "difficulty_choice" = Some (VStr d) ->
  is_Some (DIFFICULTY_TARGETS !! d) ->
  holds_parameters (seed_defaults s) y c r g u ->
  slider 20 120 5 y -> slider 280 900 10 c -> slider (-30) 50 1 r ->
  slider 0 100 5 g -> slider 0 100 5 u ->
  slots_ok s ->
  session_ok s.
Proof.
  intros Hm Hd Ht Hp Sy Sc Sr Sg Su Hslots. split.
  - split; [by exists m |]. split; [by exists d |].
    split; [| by apply slots_ok_seed_defaults].
    exists y, c, r, g, u. split; [done |]. destruct Sy as [? _]. lia.
  - by exists y, c, r, g, u.
Qed.

Lemma holds_parameters_seed_defaults (s : session) (y c r g u : Z) :
  holds_parameters s y c r g u -> holds_parameters (seed_defaults s) y c r g u.
Proof.
  intros (Hy & Hc & Hr & Hg & Hu).
  repeat split; by apply lookup_seed_defaults_Some.
Qed.

(** The session after the mode branch, on a session that is in order. *)
Lemma mode_branch_ok (s : session) (m : string) (y c r g u : Z) :
  s !! "mode" = Some (VStr m) ->
  holds_parameters s y c r g u ->
  slider 0 100 5 u ->
  exists s1 u1,
    mode_branch s = Some s1 /\
    (forall k, k <> "urbanization_pct" -> s1 !! k = s !! k) /\
    holds_parameters s1 y c r g u1 /\
    slider 0 100 5 u1 /\
    u1 = (if String.eqb m "Kids (simple)" then 45 else u)%Z.
Proof.
  intros Hm (Hy & Hc & Hr & Hg & Hu) Su.
  unfold mode_branch. rewrite Hm. option_step. cbn [is_kids].
  destruct (String.eqb m "Kids (simple)").
  - eexists _, 45%Z. split; [done |].
    split; [intros k Hk; by apply lookup_insert_ne |].
    split; [| split; [by unfold slider | done]].
    unfold holds_parameters.
    rewrite lookup_insert_eq, !lookup_insert_ne by done. done.
  - exists s, u. done.
Qed.

(** A session that agrees with one in order on the mode, the difficulty and
    the five parameters, and whose slots are well formed, is in order. *)
Lemma session_ok_agree (s1 s' : session) (m d : string) (y c r g u : Z) :
  s1 !! "mode" = Some (VStr m) ->
  s1 !! "difficulty_choice" = Some (VStr d) ->
  is_Some (DIFFICULTY_TARGETS !! d) ->
  holds_parameters s1 y c r g u ->
  slider 20 120 5 y -> slider 280 900 10 c -> slider (-30) 50 1 r ->
  slider 0 100 5 g -> slider 0 100 5 u ->
  (forall k, k ∈ [ "mode"; "difficulty_choice"; "years"; "co2_ppm";
                   "rainfall_change_pct"; "green_infra_pct";
                   "urbanization_pct" ] -> s' !! k = s1 !! k) ->
  slots_ok s' ->
  session_ok s'.
Proof.
  intros Hm Hd Ht (Hy & Hc & Hr & Hg & Hu) Sy Sc Sr Sg Su Hagree Hslots.
  apply (session_ok_intro s' m d y c r g u); try done.
  - apply lookup_seed_defaults_Some. rewrite Hagree by entry_in. done.
  - apply lookup_seed_defaults_Some. rewrite Hagree by entry_in. done.
  - apply holds_parameters_seed_defaults. unfold holds_parameters.
    rewrite !Hagree by entry_in. done.
Qed.

Lemma slider_defaults :
  slider 20 120 5 80 /\ slider 280 900 10 450 /\ slider (-30) 50 1 10 /\
  slider 0 100 5 20 /\ slider 0 100 5 40.
Proof. unfold slider. repeat split; lia || reflexivity. Qed.

Lemma DIFFICULTY_TARGETS_Medium : DIFFICULTY_TARGETS !! "Medium" = Some (40, 40)%Z.
Proof. by vm_compute. Qed.

Lemma session_ok_reset_to_default (s : session) :
  session_ok (reset_to_default s).
Proof.
  destruct slider_defaults as (Sy & Sc & Sr & Sg & Su).
  assert (Hlook : forall k v,
             (k, v) ∈ DEFAULTS -> reset_to_default s !! k = Some v)
    by (intros k v; apply lookup_reset_to_default).
  apply (session_ok_agree (reset_to_default s) (reset_to_default s)
           "Standard" "Medium" 80 450 10 20 40); try done.
  - apply Hlook. entry_in.
  - apply Hlook. entry_in.
  - unfold holds_parameters. repeat split; apply Hlook; entry_in.
  - split; left; unfold get_none, get.
    + by rewrite (Hlook "scenario_A" VNone) by entry_in.
    + by rewrite (Hlook "scenario_B" VNone) by entry_in.
Qed.

(** The preset values are values of their sliders. *)
Lemma session_ok_preset (s : session) (bundle : list (string * value))
    (d : string) :
  bundle ∈ [preset_business; preset_green; preset_urban] ->
  s !! "difficulty_choice" = Some (VStr d) ->
  is_Some (DIFFICULTY_TARGETS !! d) ->
  slots_ok s ->
  session_ok (update s bundle).
Proof.
  intros Hb Hd Ht Hslots.
  assert (Hslots' : slots_ok (update s bundle)).
  { apply (slots_ok_frame s); [| | done]; apply lookup_update_notin;
      repeat (apply elem_of_cons in Hb as [-> | Hb]; [simpl; key_notin |]);
      by apply elem_of_nil in Hb. }
  assert (Hd' : update s bundle !! "difficulty_choice" = Some (VStr d)).
  { rewrite <- Hd. apply lookup_update_notin.
    repeat (apply elem_of_cons in Hb as [-> | Hb]; [simpl; key_notin |]).
    by apply elem_of_nil in Hb. }
  assert (Hshape : exists y c r g u,
             holds_parameters (update s bundle) y c r g u /\
             update s bundle !! "mode" = Some (VStr "Standard") /\
             slider 20 120 5 y /\ slider 280 900 10 c /\ slider (-30) 50 1 r /\
             slider 0 100 5 g /\ slider 0 100 5 u).
  { assert (Hone : forall y c r g u,
               slider 20 120 5 y -> slider 280 900 10 c ->
               slider (-30) 50 1 r -> slider 0 100 5 g -> slider 0 100 5 u ->
               bundle
               = [ ("mode", VStr "Standard"); ("years", VInt y);
                   ("co2_ppm", VInt c); ("rainfall_change_pct", VInt r);
                   ("green_infra_pct", VInt g); ("urbanization_pct", VInt u);
                   ("challenge_won", VBool false) ] ->
               exists y c r g u,
                 holds_parameters (update s bundle) y c r g u /\
                 update s bundle !! "mode" = Some (VStr "Standard") /\
                 slider 20 120 5 y /\ slider 280 900 10 c /\
                 slider (-30) 50 1 r /\
                 slider 0 100 5 g /\ slider 0 100 5 u).
    { intros y c r g u Sy Sc Sr Sg Su Heq. exists y, c, r, g, u.
      destruct (preset_update bundle s y c r g u Heq) as (Hp & Hmode & _).
      done. }
    apply elem_of_cons in Hb as [-> | Hb].
    { apply (Hone 80 650 10 10 65)%Z; unfold slider; try done. }
    apply elem_of_cons in Hb as [-> | Hb].
    { apply (Hone 80 380 5 70 30)%Z; unfold slider; try done. }
    apply elem_of_cons in Hb as [-> | Hb].
    { apply (Hone 80 520 15 15 85)%Z; unfold slider; try done. }
    by apply elem_of_nil in Hb. }
  destruct Hshape as (y & c & r & g & u & Hp & Hmode & Sy & Sc & Sr & Sg & Su).
  by apply (session_ok_agree (update s bundle) (update s bundle)
              "Standard" d y c r g u).
Qed.

Ltac each_key Hk tac :=
  repeat (apply elem_of_cons in Hk as [-> | Hk]; [tac |]);
  by apply elem_of_nil in Hk.

(** Every pass keeps the session in order, whichever button started it and
    whether it reruns or reaches the end of the page. *)
Lemma script_session_ok (click : option button) (s0 : session)
    (o : outcome) :
  session_ok s0 -> script click s0 = Some o -> session_ok (outcome_session o).
Proof.
  intros Hok Hrun.
  destruct (session_ok_elim s0 Hok)
    as (m & d & targets & y & c & r & g & u & Hm & Hd & Ht & Hp
        & (Sy & Sc & Sr & Sg & Su) & Hslots).
  assert (Hslots_o : slots_ok (outcome_session o)).
  { apply (script_preserves_slots click s0); [done |].
    by apply slots_ok_seed_defaults_inv. }
  revert Hrun. unfold script.
  generalize dependent (seed_defaults s0). intros s Hm Hd Hp Hslots.
  destruct (clicked click BtnReset).
  { intros [= <-]. apply session_ok_reset_to_default. }
  destruct (clicked click BtnBusiness).
  { intros [= <-]. cbn [outcome_session].
    apply (session_ok_preset s preset_business d); try done. entry_in. }
  destruct (clicked click BtnGreen).
  { intros [= <-]. cbn [outcome_session].
    apply (session_ok_preset s preset_green d); try done. entry_in. }
  destruct (clicked click BtnUrban).
  { intros [= <-]. cbn [outcome_session].
    apply (session_ok_preset s preset_urban d); try done. entry_in. }
  destruct (mode_branch_ok s m y c r g u Hm Hp Su)
    as (s1 & u1 & Hmode & Hframe & Hp1 & Su1 & _).
  rewrite Hmode. option_step.
  assert (Hm1 : s1 !! "mode" = Some (VStr m)) by (by rewrite Hframe).
  assert (Hd1 : s1 !! "difficulty_choice" = Some (VStr d))
    by (by rewrite Hframe).
  destruct (clicked click BtnResetChallenge).
  { intros [= <-]. cbn [outcome_session] in *.
    destruct Hp1 as (Hy1 & Hc1 & Hr1 & Hg1 & Hu1).
    apply (session_ok_intro _ m "Medium" y c r g u1); try done.
    - apply lookup_seed_defaults_Some. unfold reset_challenge.
      by rewrite lookup_delete_ne, lookup_insert_ne.
    - rewrite lookup_seed_defaults. unfold reset_challenge.
      by rewrite lookup_delete_eq.
    - unfold holds_parameters, reset_challenge.
      repeat split; apply lookup_seed_defaults_Some;
        by rewrite lookup_delete_ne, lookup_insert_ne. }
  assert (Hfinish : forall s',
             (forall k, k ∈ [ "mode"; "difficulty_choice"; "years"; "co2_ppm";
                              "rainfall_change_pct"; "green_infra_pct";
                              "urbanization_pct" ] -> s' !! k = s1 !! k) ->
             slots_ok s' -> session_ok s').
  { intros s' Hagree Hs'.
    by apply (session_ok_agree s1 s' m d y c r g u1). }
  destruct (difficulty_targets s1) as [tg|]; [option_step | done].
  destruct (run_simulation s1) as [df|]; [option_step | done].
  destruct (last (flood_risk df)) as [fv|]; [option_step | done].
  destruct (last (drought_risk df)) as [dv|]; [option_step | done].
  destruct (last (temp_anomaly_C df)) as [tv|]; [option_step | done].
  destruct (_ && clicked click BtnSaveA).
  { destruct (snapshot_current s1 df) as [snap|]; [option_step | done].
    intros [= <-]. cbn [outcome_session] in *. apply Hfinish; [| done].
    intros k Hk. each_key Hk ltac:(by rewrite lookup_insert_ne). }
  destruct (_ && clicked click BtnSaveB).
  { destruct (snapshot_current s1 df) as [snap|]; [option_step | done].
    intros [= <-]. cbn [outcome_session] in *. apply Hfinish; [| done].
    intros k Hk. each_key Hk ltac:(by rewrite lookup_insert_ne). }
  destruct (_ && clicked click BtnClear).
  { intros [= <-]. cbn [outcome_session] in *. apply Hfinish; [| done].
    intros k Hk. each_key Hk ltac:(by rewrite !lookup_insert_ne). }
  destruct (challenge_status s1 fv dv tg.1 tg.2) as [s2 boxes] eqn:Hstatus.
  destruct (scenario_comparison s2); [option_step | done].
  intros [= <-]. cbn [outcome_session] in *. apply Hfinish; [| done].
  intros k Hk.
  replace s2 with (challenge_status s1 fv dv tg.1 tg.2).1
    by (by rewrite Hstatus).
  each_key Hk ltac:(by apply challenge_status_frame).
Qed.

Lemma session_ok_total (click : option button) (s0 : session) :
  session_ok s0 -> is_Some (script click s0).
Proof. intros [Hwf _]. by apply script_total. Qed.

(** A click on a session in order: the pass it starts either reaches the end
    of the page, or reruns once and then reaches it. *)
Lemma interaction_cases (click : option button) (s0 : session) :
  session_ok s0 ->
  exists s' out,
    interaction click s0 = Some (Done s' out) /\ session_ok s' /\
    (script click s0 = Some (Done s' out) \/
     exists s1, script click s0 = Some (Rerun s1) /\ session_ok s1 /\
                script None s1 = Some (Done s' out)).
Proof.
  intros Hok. unfold interaction.
  destruct (session_ok_total click s0 Hok) as [o Ho].
  pose proof (script_session_ok click s0 o Hok Ho) as Hok'.
  rewrite Ho. destruct o as [s1 | s' out]; cbn [outcome_session] in Hok'.
  - destruct (session_ok_total None s1 Hok') as [o' Ho'].
    pose proof (script_session_ok None s1 o' Hok' Ho') as Hok''.
    destruct o' as [s2 | s' out].
    + by apply script_no_click_no_rerun in Ho'.
    + exists s', out. split; [done |]. split; [done |]. right. by exists s1.
  - exists s', out. split; [done |]. split; [done |]. by left.
Qed.

Lemma session_ok_fresh : session_ok fresh_session.
Proof.
  destruct slider_defaults as (Sy & Sc & Sr & Sg & Su).
  apply (session_ok_agree fresh_session fresh_session
           "Standard" "Medium" 80 450 10 20 40); try done.
  split; by left.
Qed.

(** A pass no button started, on a session in order, reaches the end of the
    page. *)
Lemma script_no_click_done (s0 : session) :
  session_ok s0 -> exists s' out, script None s0 = Some (Done s' out).
Proof.
  intros Hok. destruct (session_ok_total None s0 Hok) as [[s1 | s' out] Ho].
  - by apply script_no_click_no_rerun in Ho.
  - by exists s', out.
Qed.

Lemma compare_on_seed_defaults (s : session) :
  compare_on (seed_defaults s) = compare_on s.
Proof.
  unfold compare_on, get. rewrite lookup_seed_defaults.
  by destruct (s !! "compare_on").
Qed.

Lemma compare_on_mode_branch (s0 s1 : session) :
  mode_branch (seed_defaults s0) = Some s1 -> compare_on s1 = compare_on s0.
Proof.
  intros Hmode. rewrite <- (compare_on_seed_defaults s0).
  unfold compare_on, get. by rewrite (mode_branch_frame _ _ _ Hmode).
Qed.

(** What a pass starts from on a session in order: the session after the mode
    branch, with the entries the rest of the pass reads. *)
Lemma session_ok_pass (s0 : session) :
  session_ok s0 ->
  exists s1 m targets y c r g u,
    mode_branch (seed_defaults s0) = Some s1 /\
    s1 !! "mode" = Some (VStr m) /\
    difficulty_targets s1 = Some targets /\
    holds_parameters s1 y c r g u /\
    in_domain y c r g u /\
    (is_kids (VStr m) = true -> u = 45%Z) /\
    slots_ok s1.
Proof.
  intros Hok.
  destruct (session_ok_elim s0 Hok)
    as (m & d & targets & y & c & r & g & u & Hm & Hd & Ht & Hp
        & (Sy & Sc & Sr & Sg & Su) & Hslots).
  destruct (mode_branch_ok _ m y c r g u Hm Hp Su)
    as (s1 & u1 & Hmode & Hframe & Hp1 & Su1 & Hu1).
  exists s1, m, targets, y, c, r, g, u1.
  split; [done |]. split; [by rewrite Hframe |].
  split.
  { unfold difficulty_targets. rewrite Hframe, Hd by done. by option_step. }
  split; [done |]. split; [by apply slider_in_domain |].
  split.
  { cbn [is_kids]. intros Hk. by rewrite Hk in Hu1. }
  apply (slots_ok_frame (seed_defaults s0)); [| | done]; by apply Hframe.
Qed.


Lemma simulate_no_rows (years c r g u : Z) :
  (years < 0)%Z -> simulate years c r g u = mkDataFrame [] [] [] [].
Proof.
  intros Hy. unfold simulate, arange.
  replace (Z.to_nat (years + 1)) with 0%nat by lia. reflexivity.
Qed.

Lemma slot_ok_simulate (params : Params value) (years c r g u : Z) :
  (0 <= years)%Z -> slot_ok (VScenario params (simulate years c r g u)).
Proof.
  intros Hy. right. exists params, (simulate years c r g u).
  destruct (simulate_last years c r g u Hy) as (-> & -> & ->). done.
Qed.

(** With the challenge on, the won flag after the block says whether both
    risks are within their targets, whatever it was before. *)
Lemma challenge_won_after (s : session) (flood_val drought_val : R)
    (target_flood target_drought : Z) :
  challenge_on s = true ->
  challenge_won
    (challenge_status s flood_val drought_val target_flood target_drought).1
  = Rleb flood_val (IZR target_flood) && Rleb drought_val (IZR target_drought).
Proof.
  intros Hon.
  destruct (challenge_status_enabled s flood_val drought_val target_flood
              target_drought Hon) as (boxes & _ & ->).
  destruct (Rleb flood_val _ && Rleb drought_val _).
  - destruct (challenge_won s) eqn:Hwon; cbn [fst]; [done |].
    unfold challenge_won. by rewrite get_insert_eq.
  - cbn [fst]. unfold challenge_won. by rewrite get_insert_eq.
Qed.

Lemma challenge_on_mode_branch (s0 s1 : session) :
  mode_branch (seed_defaults s0) = Some s1 -> challenge_on s1 = challenge_on s0.
Proof.
  intros Hmode. rewrite <- (challenge_on_seed_defaults s0).
  unfold challenge_on, get. by rewrite (mode_branch_frame _ _ _ Hmode).
Qed.

Lemma challenge_won_mode_branch (s0 s1 : session) :
  mode_branch (seed_defaults s0) = Some s1 ->
  challenge_won s1 = challenge_won s0.
Proof.
  intros Hmode. rewrite <- (challenge_won_seed_defaults s0).
  unfold challenge_won, get. by rewrite (mode_branch_frame _ _ _ Hmode).
Qed.

(** ** Widget changes *)

Lemma lookup_seed_defaults_insert_ne (s : session) (k k' : string) (v : value) :
  k <> k' -> seed_defaults (<[k := v]> s) !! k' = seed_defaults s !! k'.
Proof.
  intros Hne. by rewrite !lookup_seed_defaults, lookup_insert_ne.
Qed.

Lemma lookup_seed_defaults_insert_eq (s : session) (k : string) (v : value) :
  seed_defaults (<[k := v]> s) !! k = Some v.
Proof. apply lookup_seed_defaults_Some, lookup_insert_eq. Qed.

Lemma slots_ok_insert (s : session) (k : string) (v : value) :
  k <> "scenario_A" -> k <> "scenario_B" -> slots_ok s ->
  slots_ok (<[k := v]> s).
Proof.
  intros HA HB. apply slots_ok_frame; by apply lookup_insert_ne.
Qed.

Ltac edit_case m d y c r g u :=
  apply (session_ok_intro _ m d y c r g u); try done;
  unfold holds_parameters;
  rewrite ?lookup_seed_defaults_insert_eq,
          ?lookup_seed_defaults_insert_ne by done;
  try done; try (by apply slots_ok_insert).

(** A widget edit keeps the session in order. *)
Lemma session_ok_edit (s : session) (k : string) (v : value) :
  session_ok s -> widget_edit k v -> session_ok (<[k := v]> s).
Proof.
  intros Hok Hedit.
  destruct (session_ok_elim s Hok)
    as (m & d & targets & y & c & r & g & u & Hm & Hd & Ht
        & (Hy & Hc & Hr & Hg & Hu) & (Sy & Sc & Sr & Sg & Su)
        & Hslots%slots_ok_seed_defaults_inv).
  assert (Htg : is_Some (DIFFICULTY_TARGETS !! d)) by (by exists targets).
  destruct Hedit as [m' Hm' | n Sn | n Sn | n Sn | n Sn | n Sn | b | d' Hd' | b].
  - edit_case m' d y c r g u.
  - edit_case m d n c r g u.
  - edit_case m d y n r g u.
  - edit_case m d y c n g u.
  - edit_case m d y c r n u.
  - edit_case m d y c r g n.
  - edit_case m d y c r g u.
  - edit_case m d' y c r g u.
    each_key Hd' ltac:(eexists; vm_compute; reflexivity).
  - edit_case m d y c r g u.
Qed.

Lemma session_ok_kids : session_ok kids_session.
Proof.
  unfold kids_session.
  apply session_ok_edit; [apply session_ok_edit |].
  - exact session_ok_fresh.
  - constructor. by unfold slider.
  - constructor. entry_in.
Qed.

Lemma session_ok_kids_compare :
  session_ok (<["compare_on" := VBool true]> kids_session).
Proof. apply session_ok_edit; [exact session_ok_kids | constructor]. Qed.

(** ** Passes, clicks and the blocks of the page *)

(** X7.  No pass fails on a session in order, and every pass leaves one.
    If, after seeding, the mode and the difficulty are strings of their
    widgets, the five parameters are values of their sliders (range and
    step) and the slots are well formed, the pass raises no exception,
    whichever button started it, and the same holds of the session it
    leaves: the defaults, the three presets and the 45 of kids mode are all
    slider values. *)
Theorem script_pass_safe (click : option button) (s0 : session) :
  session_ok s0 ->
  exists o, script click s0 = Some o /\ session_ok (outcome_session o).
Proof.
  intros Hok. destruct (session_ok_total click s0 Hok) as [o Ho].
  exists o. split; [done |]. by apply (script_session_ok click s0).
Qed.

Lemma script_pass_safe_witness :
  session_ok fresh_session /\
  exists o, script (Some BtnGreen) fresh_session = Some o /\
            session_ok (outcome_session o).
Proof.
  split; [exact session_ok_fresh |].
  exact (script_pass_safe (Some BtnGreen) fresh_session session_ok_fresh).
Defined.

(** X8.  A click settles after at most one rerun.  The pass a click starts
    and the rerun it may cause never end in a second rerun; on a session in
    order they end on a rendered page, with the session in order again. *)
Theorem interaction_settles (click : option button) (s0 : session) :
  (forall s', interaction click s0 <> Some (Rerun s')) /\
  (session_ok s0 ->
   exists s' out, interaction click s0 = Some (Done s' out) /\ session_ok s').
Proof.
  split.
  - intros s'. unfold interaction.
    destruct (script click s0) as [[s1 | s2 out] |] eqn:Hrun; [| done | done].
    apply script_no_click_no_rerun.
  - intros Hok.
    destruct (interaction_cases click s0 Hok) as (s' & out & Hi & Hok' & _).
    by exists s', out.
Qed.

Lemma interaction_settles_witness :
  session_ok fresh_session /\
  exists s' out,
    interaction (Some BtnUrban) fresh_session = Some (Done s' out) /\
    session_ok s'.
Proof.
  split; [exact session_ok_fresh |].
  exact (proj2 (interaction_settles (Some BtnUrban) fresh_session)
               session_ok_fresh).
Defined.

(** X9.  No series of clicks and widget changes breaks the page.  From a
    session in order, any series of button clicks and of widget changes
    within the options, ranges and steps the widgets declare runs to its end
    without an exception and leaves the session in order. *)
Theorem run_safe (events : list event) (s : session) :
  session_ok s -> Forall valid_event events ->
  exists s', run events s = Some s' /\ session_ok s'.
Proof.
  intros Hok Hvalid. revert s Hok.
  induction Hvalid as [| e events He _ IH]; intros s Hok.
  - by exists s.
  - cbn [run].
    assert (exists o, handle e s = Some o /\ session_ok (outcome_session o))
      as (o & -> & Hok').
    { destruct e as [b | k v]; cbn [handle].
      - destruct (interaction_cases (Some b) s Hok) as (s' & out & -> & ? & _).
        by eexists.
      - pose proof (session_ok_edit s k v Hok He) as Hedit.
        destruct (session_ok_total None _ Hedit) as [o Ho].
        exists o. split; [done |].
        by apply (script_session_ok None (<[k := v]> s) o). }
    option_step. by apply IH.
Qed.

Lemma run_safe_witness :
  session_ok fresh_session /\
  Forall valid_event
    [ Edit "mode" (VStr "Kids (simple)"); Edit "challenge_on" (VBool true);
      Click BtnGreen; Edit "compare_on" (VBool true); Click BtnSaveA ] /\
  exists s',
    run [ Edit "mode" (VStr "Kids (simple)"); Edit "challenge_on" (VBool true);
          Click BtnGreen; Edit "compare_on" (VBool true); Click BtnSaveA ]
        fresh_session = Some s' /\
    session_ok s'.
Proof.
  assert (Hvalid : Forall valid_event
            [ Edit "mode" (VStr "Kids (simple)");
              Edit "challenge_on" (VBool true);
              Click BtnGreen; Edit "compare_on" (VBool true);
              Click BtnSaveA ]).
  { repeat apply Forall_cons_2; try apply Forall_nil_2; cbn [valid_event];
      try exact I; constructor. entry_in. }
  split; [exact session_ok_fresh |]. split; [exact Hvalid |].
  exact (run_safe _ fresh_session session_ok_fresh Hvalid).
Defined.

(** X10.  On a session in order, a pass that reaches the end of the page
    shows the frame of a parameter set of the slider domain, and its three
    top metrics are the last row of that frame: the warming is not negative
    and the flood and drought risks lie in [0, 100). *)
Theorem page_metrics_in_range (click : option button) (s0 s' : session)
    (out : list ui) :
  session_ok s0 -> script click s0 = Some (Done s' out) ->
  exists y c r g u boxes cmp row,
    in_domain y c r g u /\
    iloc (simulate y c r g u) (Z.to_nat y) = Some row /\
    out = boxes ++ top_metrics (r_temp row) (r_flood row) (r_drought row)
                ++ cmp ++ [StDataframe (simulate y c r g u)] /\
    (0 <= r_temp row)%R /\
    (0 <= r_flood row < 100)%R /\ (0 <= r_drought row < 100)%R.
Proof.
  intros Hok Hrun.
  destruct (session_ok_elim s0 Hok)
    as (m & d & targets & y & c & r & g & u & Hm & Hd & Ht & Hp
        & (Sy & Sc & Sr & Sg & Su) & Hslots).
  apply script_done_inv in Hrun
    as (s1 & tg & df & fv & dv & tv & boxes & cmp
        & Hmode & _ & Hdf & Hfv & Hdv & Htv & _ & _ & ->).
  destruct (mode_branch_ok _ m y c r g u Hm Hp Su)
    as (s1' & u1 & Hmode' & _ & (Hy1 & Hc1 & Hr1 & Hg1 & Hu1) & Su1 & _).
  rewrite Hmode in Hmode'. injection Hmode' as <-.
  unfold run_simulation in Hdf. rewrite Hy1, Hc1, Hr1, Hg1, Hu1 in Hdf.
  option_step_in Hdf. injection Hdf as <-.
  pose proof (slider_in_domain y c r g u1 Sy Sc Sr Sg Su1) as Hdom.
  assert (Hpos : (0 <= y)%Z) by (destruct Sy as [? _]; lia).
  destruct (simulate_last y c r g u1 Hpos) as (Ht' & Hf' & Hd').
  rewrite Ht' in Htv. rewrite Hf' in Hfv. rewrite Hd' in Hdv.
  injection Htv as <-. injection Hfv as <-. injection Hdv as <-.
  destruct Hdom as (Hdy & [Hdc ?] & Hdr & Hdg & Hdu).
  exists y, c, r, g, u1, boxes, cmp,
    (mkRow (2025 + Z.of_nat (Z.to_nat y)) (spec_tempSeries c (Z.to_nat y))
           (spec_floodRisk c r g u1 (Z.to_nat y))
           (spec_droughtRisk c r g (Z.to_nat y))).
  split; [by unfold in_domain |].
  split; [apply simulate_iloc; lia |].
  split; [done |]. cbn [r_temp r_flood r_drought].
  split; [by apply spec_tempSeries_nonneg |].
  split; [by apply spec_floodRisk_range | by apply spec_droughtRisk_range].
Qed.

Lemma page_metrics_in_range_witness :
  session_ok fresh_session /\
  exists s' out,
    script None fresh_session = Some (Done s' out) /\
    exists y c r g u boxes cmp row,
      in_domain y c r g u /\
      iloc (simulate y c r g u) (Z.to_nat y) = Some row /\
      out = boxes ++ top_metrics (r_temp row) (r_flood row) (r_drought row)
                  ++ cmp ++ [StDataframe (simulate y c r g u)] /\
      (0 <= r_temp row)%R /\
      (0 <= r_flood row < 100)%R /\ (0 <= r_drought row < 100)%R.
Proof.
  split; [exact session_ok_fresh |].
  destruct (script_no_click_done fresh_session session_ok_fresh)
    as (s' & out & Hrun).
  exists s', out. split; [exact Hrun |].
  exact (page_metrics_in_range None fresh_session s' out session_ok_fresh Hrun).
Defined.

(** X11.  The challenge reset button.  After the mode branch it sets the won
    flag to [False], removes the difficulty entry and reruns; every other
    entry stays.  The seeding of the next pass then puts the difficulty back
    to the default, Medium, with targets 40/40, whatever it was before. *)
Theorem reset_challenge_rearms (s0 s1 : session) :
  mode_branch (seed_defaults s0) = Some s1 ->
  script (Some BtnResetChallenge) s0 = Some (Rerun (reset_challenge s1)) /\
  reset_challenge s1 !! "challenge_won" = Some (VBool false) /\
  reset_challenge s1 !! "difficulty_choice" = None /\
  (forall k, k <> "challenge_won" -> k <> "difficulty_choice" ->
             reset_challenge s1 !! k = s1 !! k) /\
  seed_defaults (reset_challenge s1) !! "difficulty_choice"
  = Some (VStr "Medium") /\
  difficulty_targets (seed_defaults (reset_challenge s1)) = Some (40, 40)%Z /\
  challenge_won (seed_defaults (reset_challenge s1)) = false.
Proof.
  intros Hmode.
  assert (Hdiff : seed_defaults (reset_challenge s1) !! "difficulty_choice"
                  = Some (VStr "Medium")).
  { rewrite lookup_seed_defaults. unfold reset_challenge.
    by rewrite lookup_delete_eq. }
  split.
  { unfold script. rewrite !clicked_Some.
    repeat (rewrite bool_decide_eq_false_2 by done). cbv beta iota zeta.
    rewrite Hmode. option_step.
    by rewrite bool_decide_eq_true_2 by done. }
  split.
  { unfold reset_challenge. by rewrite lookup_delete_ne, lookup_insert_eq. }
  split; [apply lookup_delete_eq |].
  split.
  { intros k Hw Hd. unfold reset_challenge.
    by rewrite lookup_delete_ne, lookup_insert_ne. }
  split; [exact Hdiff |].
  split.
  { unfold difficulty_targets. rewrite Hdiff. option_step.
    apply DIFFICULTY_TARGETS_Medium. }
  rewrite challenge_won_seed_defaults. unfold challenge_won, get, reset_challenge.
  by rewrite lookup_delete_ne, lookup_insert_eq.
Qed.

Lemma reset_challenge_rearms_witness :
  mode_branch (seed_defaults kids_session)
  = Some (<["urbanization_pct" := VInt 45]> kids_session) /\
  script (Some BtnResetChallenge) kids_session
  = Some (Rerun (reset_challenge
                   (<["urbanization_pct" := VInt 45]> kids_session))).
Proof.
  assert (Hmode : mode_branch (seed_defaults kids_session)
                  = Some (<["urbanization_pct" := VInt 45]> kids_session))
    by reflexivity.
  split; [exact Hmode |].
  exact (proj1 (reset_challenge_rearms kids_session _ Hmode)).
Defined.



(** X13.  Saving a scenario.  With the comparison switched on, on a session
    in order, "Save A" stores under [scenario_A] the mode, the five
    parameters the simulation of this pass ran with (urbanization 45 in kids
    mode) and its frame, and reruns; "Save B" does the same under
    [scenario_B].  Nothing else is written: the other slot and every other
    entry stay as the mode branch left them. *)
Theorem save_stores_current_run (s0 : session) :
  session_ok s0 -> compare_on s0 = true ->
  exists s1 mode y c r g u,
    mode_branch (seed_defaults s0) = Some s1 /\
    s1 !! "mode" = Some mode /\
    holds_parameters s1 y c r g u /\
    run_simulation s1 = Some (simulate y c r g u) /\
    script (Some BtnSaveA) s0
    = Some (Rerun (<["scenario_A" :=
                       VScenario (mkParams mode y c r g u)
                                 (simulate y c r g u)]> s1)) /\
    script (Some BtnSaveB) s0
    = Some (Rerun (<["scenario_B" :=
                       VScenario (mkParams mode y c r g u)
                                 (simulate y c r g u)]> s1)).
Proof.
  intros Hok Hon.
  destruct (session_ok_pass s0 Hok)
    as (s1 & m & targets & y & c & r & g & u & Hmode & Hm & Htg & Hp & Hdom
        & _ & _).
  assert (Hon1 : compare_on s1 = true)
    by (by rewrite (compare_on_mode_branch s0 s1 Hmode)).
  assert (Hpos : (0 <= y)%Z) by (destruct Hdom as ([? _] & _); lia).
  assert (Hsnap : snapshot_current s1 (simulate y c r g u)
                  = Some (VScenario (mkParams (VStr m) y c r g u)
                                    (simulate y c r g u))).
  { destruct Hp as (Hy & Hc & Hr & Hg & Hu). unfold snapshot_current.
    rewrite Hm, Hy, Hc, Hr, Hg, Hu. by option_step. }
  assert (Hsim : run_simulation s1 = Some (simulate y c r g u)).
  { destruct Hp as (Hy & Hc & Hr & Hg & Hu). unfold run_simulation.
    rewrite Hy, Hc, Hr, Hg, Hu. by option_step. }
  exists s1, (VStr m), y, c, r, g, u.
  split; [done |]. split; [done |]. split; [done |]. split; [done |].
  split.
  - rewrite (script_eval (Some BtnSaveA) s0 s1 targets y c r g u);
      [| by intros b [= <-] | done | done | done | done].
    cbv zeta. rewrite Hon1, Hsnap. by option_step.
  - rewrite (script_eval (Some BtnSaveB) s0 s1 targets y c r g u);
      [| by intros b [= <-] | done | done | done | done].
    cbv zeta. rewrite Hon1, Hsnap. by option_step.
Qed.

Lemma save_stores_current_run_witness :
  session_ok (<["compare_on" := VBool true]> kids_session) /\
  compare_on (<["compare_on" := VBool true]> kids_session) = true /\
  exists s1 mode y c r g u,
    mode_branch (seed_defaults (<["compare_on" := VBool true]> kids_session))
    = Some s1 /\
    s1 !! "mode" = Some mode /\
    holds_parameters s1 y c r g u /\
    run_simulation s1 = Some (simulate y c r g u) /\
    script (Some BtnSaveA) (<["compare_on" := VBool true]> kids_session)
    = Some (Rerun (<["scenario_A" :=
                       VScenario (mkParams mode y c r g u)
                                 (simulate y c r g u)]> s1)) /\
    script (Some BtnSaveB) (<["compare_on" := VBool true]> kids_session)
    = Some (Rerun (<["scenario_B" :=
                       VScenario (mkParams mode y c r g u)
                                 (simulate y c r g u)]> s1)).
Proof.
  assert (Hon : compare_on (<["compare_on" := VBool true]> kids_session) = true)
    by reflexivity.
  split; [exact session_ok_kids_compare |]. split; [exact Hon |].
  exact (save_stores_current_run _ session_ok_kids_compare Hon).
Defined.

(** X14.  With the comparison switched off the three snapshot buttons are
    not part of the page: a pass started by "Save A", "Save B" or "Clear"
    does exactly what a pass without a click does, on any session. *)
Theorem snapshot_buttons_inert (b : button) (s0 : session) :
  compare_on s0 = false -> b ∈ [BtnSaveA; BtnSaveB; BtnClear] ->
  script (Some b) s0 = script None s0.
Proof.
  intros Hoff Hb.
  assert (Hearly : early_button b = false) by (each_key Hb ltac:(done)).
  assert (Hcl : forall b', early_button b' = true ->
                           clicked (Some b) b' = false).
  { intros b' Hb'. rewrite clicked_Some. apply bool_decide_eq_false_2.
    intros ->. congruence. }
  unfold script.
  rewrite !clicked_None, !(Hcl BtnReset), !(Hcl BtnBusiness), !(Hcl BtnGreen),
          !(Hcl BtnUrban), !(Hcl BtnResetChallenge) by done.
  cbv beta iota zeta.
  destruct (mode_branch (seed_defaults s0)) as [s1|] eqn:Hmode;
    [option_step | done].
  pose proof (compare_on_mode_branch s0 s1 Hmode) as Hoff1.
  rewrite Hoff in Hoff1. unfold compare_on in Hoff1. rewrite Hoff1.
  done.
Qed.

Lemma snapshot_buttons_inert_witness :
  compare_on kids_session = false /\
  BtnSaveA ∈ [BtnSaveA; BtnSaveB; BtnClear] /\
  script (Some BtnSaveA) kids_session = script None kids_session.
Proof.
  assert (Hoff : compare_on kids_session = false) by reflexivity.
  assert (Hb : BtnSaveA ∈ [BtnSaveA; BtnSaveB; BtnClear])
    by apply list_elem_of_here.
  split; [exact Hoff |]. split; [exact Hb |].
  exact (snapshot_buttons_inert BtnSaveA kids_session Hoff Hb).
Defined.

(** X15.  Clearing the snapshots.  With the comparison switched on, on a
    session in order, "Clear" sets both slots to [None] and reruns, whatever
    they held; the comparison block then shows the "save two scenarios"
    message. *)
Theorem clear_empties_slots (s0 : session) :
  session_ok s0 -> compare_on s0 = true ->
  exists s1 s',
    mode_branch (seed_defaults s0) = Some s1 /\
    script (Some BtnClear) s0 = Some (Rerun s') /\
    s' = <["scenario_B" := VNone]> (<["scenario_A" := VNone]> s1) /\
    s' !! "scenario_A" = Some VNone /\ s' !! "scenario_B" = Some VNone /\
    (forall k, k <> "scenario_A" -> k <> "scenario_B" -> s' !! k = s1 !! k) /\
    scenario_comparison s' = Some [incomplete_comparison].
Proof.
  intros Hok Hon.
  destruct (session_ok_pass s0 Hok)
    as (s1 & m & targets & y & c & r & g & u & Hmode & Hm & Htg & Hp & Hdom
        & _ & _).
  assert (Hon1 : compare_on s1 = true)
    by (by rewrite (compare_on_mode_branch s0 s1 Hmode)).
  assert (Hpos : (0 <= y)%Z) by (destruct Hdom as ([? _] & _); lia).
  exists s1, (<["scenario_B" := VNone]> (<["scenario_A" := VNone]> s1)).
  split; [done |]. split.
  { rewrite (script_eval (Some BtnClear) s0 s1 targets y c r g u);
      [| by intros b [= <-] | done | done | done | done].
    cbv zeta. by rewrite Hon1. }
  split; [done |].
  split; [by rewrite lookup_insert_ne, lookup_insert_eq |].
  split; [apply lookup_insert_eq |].
  split; [intros k HA HB; by rewrite !lookup_insert_ne |].
  unfold scenario_comparison, get_none, get.
  rewrite !lookup_insert_eq, !lookup_insert_ne, lookup_insert_eq by done.
  fold (get s1 "compare_on" (VBool false)). fold (compare_on s1).
  by rewrite Hon1.
Qed.

Lemma clear_empties_slots_witness :
  session_ok (<["compare_on" := VBool true]> kids_session) /\
  compare_on (<["compare_on" := VBool true]> kids_session) = true /\
  exists s1 s',
    mode_branch (seed_defaults (<["compare_on" := VBool true]> kids_session))
    = Some s1 /\
    script (Some BtnClear) (<["compare_on" := VBool true]> kids_session)
    = Some (Rerun s') /\
    s' !! "scenario_A" = Some VNone /\ s' !! "scenario_B" = Some VNone.
Proof.
  assert (Hon : compare_on (<["compare_on" := VBool true]> kids_session) = true)
    by reflexivity.
  split; [exact session_ok_kids_compare |]. split; [exact Hon |].
  destruct (clear_empties_slots _ session_ok_kids_compare Hon)
    as (s1 & s' & Hmode & Hrun & _ & HA & HB & _).
  exists s1, s'. split; [exact Hmode |]. split; [exact Hrun |].
  split; [exact HA | exact HB].
Defined.

(** X16.  The comparison is antisymmetric.  For two saved scenarios, swapping
    the slots negates the three differences, and comparing a scenario with
    itself shows three zeros. *)
Theorem compare_antisymmetric (pA pB : Params value) (dfA dfB : DataFrame) :
  slot_ok (VScenario pA dfA) -> slot_ok (VScenario pB dfB) ->
  exists dt df dd : R,
    compare (VScenario pA dfA) (VScenario pB dfB)
    = Some [ StMetric "Δ Warming (A → B)" dt;
             StMetric "Δ Flood risk (A → B)" df;
             StMetric "Δ Drought risk (A → B)" dd ] /\
    compare (VScenario pB dfB) (VScenario pA dfA)
    = Some [ StMetric "Δ Warming (A → B)" (- dt);
             StMetric "Δ Flood risk (A → B)" (- df);
             StMetric "Δ Drought risk (A → B)" (- dd) ] /\
    compare (VScenario pA dfA) (VScenario pA dfA)
    = Some [ StMetric "Δ Warming (A → B)" 0;
             StMetric "Δ Flood risk (A → B)" 0;
             StMetric "Δ Drought risk (A → B)" 0 ].
Proof.
  intros [HA | (pA' & dfA' & [= <- <-] & [tA HtA] & [fA HfA] & [dA HdA])];
    [done |].
  intros [HB | (pB' & dfB' & [= <- <-] & [tB HtB] & [fB HfB] & [dB HdB])];
    [done |].
  exists (tB - tA)%R, (fB - fA)%R, (dB - dA)%R.
  unfold compare. cbn [truthy negb orb scenario_df]. option_step.
  rewrite HtA, HfA, HdA, HtB, HfB, HdB. option_step.
  split; [done |]. split.
  - do 2 f_equal; [| f_equal; [| f_equal]]; f_equal; lra.
  - do 2 f_equal; [| f_equal; [| f_equal]]; f_equal; lra.
Qed.

Lemma compare_antisymmetric_witness :
  slot_ok scenario_default /\ slot_ok scenario_business /\
  exists dt df dd : R,
    compare scenario_default scenario_business
    = Some [ StMetric "Δ Warming (A → B)" dt;
             StMetric "Δ Flood risk (A → B)" df;
             StMetric "Δ Drought risk (A → B)" dd ] /\
    compare scenario_business scenario_default
    = Some [ StMetric "Δ Warming (A → B)" (- dt);
             StMetric "Δ Flood risk (A → B)" (- df);
             StMetric "Δ Drought risk (A → B)" (- dd) ].
Proof.
  assert (HA : slot_ok scenario_default) by (apply slot_ok_simulate; lia).
  assert (HB : slot_ok scenario_business) by (apply slot_ok_simulate; lia).
  split; [exact HA |]. split; [exact HB |].
  destruct (compare_antisymmetric _ _ _ _ HA HB) as (dt & df & dd & H1 & H2 & _).
  exists dt, df, dd. split; [exact H1 | exact H2].
Defined.

(** X17.  Balloons at most once per pass, and only for a new win.  In a pass
    that reaches the end of the page [st.balloons()] runs at most once; it
    runs exactly when the challenge is on, the won flag was false when the
    pass began and is true when it ends.  Apart from the won flag the pass
    leaves the session as the mode branch left it. *)
Theorem balloons_once_per_win (click : option button) (s0 s' : session)
    (out : list ui) :
  script click s0 = Some (Done s' out) ->
  (count_balloons out <= 1)%nat /\
  (count_balloons out = 1%nat <->
   challenge_on s0 = true /\ challenge_won s0 = false /\
   challenge_won s' = true) /\
  (exists s1, mode_branch (seed_defaults s0) = Some s1 /\
              forall k, k <> "challenge_won" -> s' !! k = s1 !! k).
Proof.
  intros Hrun.
  apply script_done_inv in Hrun
    as (s1 & tg & df & fv & dv & tv & boxes & cmp
        & Hmode & _ & _ & _ & _ & _ & Hstatus & Hcmp & ->).
  pose proof (challenge_on_mode_branch s0 s1 Hmode) as Hon.
  pose proof (challenge_won_mode_branch s0 s1 Hmode) as Hwon.
  assert (Hcount : count_balloons
                     (boxes ++ top_metrics tv fv dv ++ cmp ++ [StDataframe df])
                   = count_balloons boxes).
  { rewrite !count_balloons_app.
    rewrite (count_balloons_scenario_comparison _ _ Hcmp).
    unfold count_balloons. cbn. lia. }
  rewrite Hcount.
  assert (Hframe : forall k, k <> "challenge_won" -> s' !! k = s1 !! k).
  { intros k Hk. replace s' with (s', boxes).1 by done. rewrite <- Hstatus.
    by apply challenge_status_frame. }
  split; [| split; [| by exists s1]].
  - destruct (challenge_on s1) eqn:Hon1.
    + destruct (challenge_status_enabled s1 fv dv tg.1 tg.2 Hon1)
        as (boxes0 & Hb0 & Hst).
      rewrite Hstatus in Hst.
      destruct (Rleb fv _ && Rleb dv _); [destruct (challenge_won s1) |];
        injection Hst as -> ->; rewrite ?count_balloons_app, Hb0;
        unfold count_balloons; cbn; lia.
    + rewrite challenge_status_disabled in Hstatus by done.
      injection Hstatus as <- <-. unfold count_balloons. cbn. lia.
  - rewrite <- Hon, <- Hwon.
    destruct (challenge_on s1) eqn:Hon1.
    + destruct (challenge_status_enabled s1 fv dv tg.1 tg.2 Hon1)
        as (boxes0 & Hb0 & Hst).
      rewrite Hstatus in Hst.
      destruct (Rleb fv _ && Rleb dv _) eqn:Hok;
        [destruct (challenge_won s1) eqn:Hw |];
        injection Hst as -> ->; rewrite ?count_balloons_app, Hb0.
      * split; [unfold count_balloons; cbn; lia | by intros (_ & ? & _)].
      * split; [intros _ | intros _; unfold count_balloons; cbn; lia].
        split; [done |]. split; [done |].
        unfold challenge_won. by rewrite get_insert_eq.
      * split; [unfold count_balloons; cbn; lia |].
        intros (_ & _ & Hw'). unfold challenge_won in Hw'.
        by rewrite get_insert_eq in Hw'.
    + rewrite challenge_status_disabled in Hstatus by done.
      injection Hstatus as <- <-.
      split; [unfold count_balloons; cbn; lia | by intros (? & _)].
Qed.

Lemma balloons_once_per_win_witness :
  (exists s' out, script None kids_session = Some (Done s' out) /\
                  (count_balloons out <= 1)%nat).
Proof.
  eexists _, _. split; [exact script_kids_session |].
  exact (proj1 (balloons_once_per_win None kids_session _ _
                  script_kids_session)).
Defined.

(** X18.  The difficulties are ordered.  With the challenge on and the same
    end-of-horizon risks, a run that wins against the Hard targets wins
    against the Medium targets, and one that wins against Medium wins
    against Easy. *)
Theorem easier_difficulty_keeps_win (s : session) (flood_val drought_val : R)
    (hard medium easy : Z * Z) :
  challenge_on s = true ->
  DIFFICULTY_TARGETS !! "Hard" = Some hard ->
  DIFFICULTY_TARGETS !! "Medium" = Some medium ->
  DIFFICULTY_TARGETS !! "Easy" = Some easy ->
  (challenge_won (challenge_status s flood_val drought_val hard.1 hard.2).1
   = true ->
   challenge_won (challenge_status s flood_val drought_val medium.1 medium.2).1
   = true) /\
  (challenge_won (challenge_status s flood_val drought_val medium.1 medium.2).1
   = true ->
   challenge_won (challenge_status s flood_val drought_val easy.1 easy.2).1
   = true).
Proof.
  intros Hon Hh Hm He.
  assert (hard = (30, 30)%Z) as -> by (vm_compute in Hh; congruence).
  assert (medium = (40, 40)%Z) as -> by (vm_compute in Hm; congruence).
  assert (easy = (55, 55)%Z) as -> by (vm_compute in He; congruence).
  rewrite !challenge_won_after by done. cbn [fst snd].
  rewrite !andb_true_iff, !Rleb_true.
  split; intros [Hf Hd]; split; lra.
Qed.

Lemma easier_difficulty_keeps_win_witness :
  challenge_on challenge_session = true /\
  DIFFICULTY_TARGETS !! "Hard" = Some (30, 30)%Z /\
  DIFFICULTY_TARGETS !! "Medium" = Some (40, 40)%Z /\
  DIFFICULTY_TARGETS !! "Easy" = Some (55, 55)%Z /\
  (challenge_won (challenge_status challenge_session 25 25 30 30).1 = true ->
   challenge_won (challenge_status challenge_session 25 25 40 40).1 = true).
Proof.
  assert (Hon : challenge_on challenge_session = true) by reflexivity.
  assert (Hh : DIFFICULTY_TARGETS !! "Hard" = Some (30, 30)%Z) by reflexivity.
  assert (Hm : DIFFICULTY_TARGETS !! "Medium" = Some (40, 40)%Z) by reflexivity.
  assert (He : DIFFICULTY_TARGETS !! "Easy" = Some (55, 55)%Z) by reflexivity.
  split; [exact Hon |]. split; [exact Hh |]. split; [exact Hm |].
  split; [exact He |].
  exact (proj1 (easier_difficulty_keeps_win challenge_session 25 25 _ _ _
                  Hon Hh Hm He)).
Defined.

(** X19.  The override of kids mode is not undone.  After a pass in kids
    mode that reaches the end of the page the session holds urbanization 45;
    when the mode is then switched back to Standard the mode branch leaves
    that 45 in place, so the value the slider had before kids mode is
    lost. *)
Theorem kids_override_persists (click : option button) (s0 s' : session)
    (out : list ui) :
  seed_defaults s0 !! "mode" = Some (VStr "Kids (simple)") ->
  script click s0 = Some (Done s' out) ->
  s' !! "urbanization_pct" = Some (VInt 45) /\
  mode_branch (seed_defaults (<["mode" := VStr "Standard"]> s'))
  = Some (seed_defaults (<["mode" := VStr "Standard"]> s')) /\
  seed_defaults (<["mode" := VStr "Standard"]> s') !! "urbanization_pct"
  = Some (VInt 45).
Proof.
  intros Hkids Hrun.
  apply script_done_inv in Hrun
    as (s1 & tg & df & fv & dv & tv & boxes & cmp
        & Hmode & _ & _ & _ & _ & _ & Hstatus & _ & ->).
  rewrite (mode_branch_kids _ Hkids) in Hmode.
  assert (Hs1 : s1 = <["urbanization_pct" := VInt 45]> (seed_defaults s0))
    by congruence.
  clear Hmode. subst s1.
  assert (Hu : s' !! "urbanization_pct" = Some (VInt 45)).
  { replace s' with (s', boxes).1 by done. rewrite <- Hstatus.
    rewrite challenge_status_frame by done. apply lookup_insert_eq. }
  split; [done |]. split.
  - unfold mode_branch. rewrite lookup_seed_defaults_insert_eq. by option_step.
  - apply lookup_seed_defaults_Some. by rewrite lookup_insert_ne.
Qed.

Lemma kids_override_persists_witness :
  seed_defaults kids_session !! "mode" = Some (VStr "Kids (simple)") /\
  kids_session !! "urbanization_pct" = Some (VInt 90) /\
  exists s' out,
    script None kids_session = Some (Done s' out) /\
    seed_defaults (<["mode" := VStr "Standard"]> s') !! "urbanization_pct"
    = Some (VInt 45).
Proof.
  assert (Hk : seed_defaults kids_session !! "mode"
               = Some (VStr "Kids (simple)")) by reflexivity.
  split; [exact Hk |]. split; [reflexivity |].
  eexists _, _. split; [exact script_kids_session |].
  exact (proj2 (proj2 (kids_override_persists None kids_session _ _ Hk
                         script_kids_session))).
Defined.

(** The first pass of a preset click, for each of the three buttons. *)
Lemma script_preset (s0 : session) (b : button)
    (bundle : list (string * value)) (y c r g u : Z) :
  (b, bundle, (y, c, r, g, u))
  ∈ [ (BtnBusiness, preset_business, (80, 650, 10, 10, 65)%Z);
      (BtnGreen, preset_green, (80, 380, 5, 70, 30)%Z);
      (BtnUrban, preset_urban, (80, 520, 15, 15, 85)%Z) ] ->
  script (Some b) s0 = Some (Rerun (update (seed_defaults s0) bundle)) /\
  holds_parameters (update (seed_defaults s0) bundle) y c r g u /\
  update (seed_defaults s0) bundle !! "mode" = Some (VStr "Standard").
Proof.
  intros Hb.
  assert (Hone : forall bundle' y' c' r' g' u',
             bundle'
             = [ ("mode", VStr "Standard"); ("years", VInt y');
                 ("co2_ppm", VInt c'); ("rainfall_change_pct", VInt r');
                 ("green_infra_pct", VInt g');
                 ("urbanization_pct", VInt u');
                 ("challenge_won", VBool false) ] ->
             holds_parameters (update (seed_defaults s0) bundle')
                              y' c' r' g' u' /\
             update (seed_defaults s0) bundle' !! "mode"
             = Some (VStr "Standard")).
  { intros bundle' y' c' r' g' u' Heq.
    destruct (preset_update bundle' (seed_defaults s0) y' c' r' g' u' Heq)
      as (Hp & Hm & _).
    by split. }
  apply elem_of_cons in Hb as [Heq | Hb].
  { injection Heq as -> -> -> -> -> -> ->.
    split; [reflexivity | by apply Hone]. }
  apply elem_of_cons in Hb as [Heq | Hb].
  { injection Heq as -> -> -> -> -> -> ->.
    split; [reflexivity | by apply Hone]. }
  apply elem_of_cons in Hb as [Heq | Hb].
  { injection Heq as -> -> -> -> -> -> ->.
    split; [reflexivity | by apply Hone]. }
  by apply elem_of_nil in Hb.
Qed.

Lemma mode_branch_other (s : session) (m : string) :
  s !! "mode" = Some (VStr m) -> m <> "Kids (simple)" ->
  mode_branch s = Some s.
Proof.
  intros Hm Hne. unfold mode_branch. rewrite Hm. option_step.
  unfold is_kids. by rewrite (proj2 (String.eqb_neq _ _) Hne).
Qed.

Lemma run_simulation_parameters (s : session) (y c r g u : Z) :
  holds_parameters s y c r g u ->
  run_simulation s = Some (simulate y c r g u).
Proof.
  intros (Hy & Hc & Hr & Hg & Hu). unfold run_simulation.
  by rewrite Hy, Hc, Hr, Hg, Hu.
Qed.

(** X20.  A preset from click to page.  On a session in order, a click on a
    quick-scenario button and the rerun it causes end on a page that shows
    the frame of exactly the preset's parameters, in Standard mode (so no
    override applies, also when the click came in kids mode), and the
    session holds those parameters. *)
Theorem preset_interaction (s0 : session) (b : button)
    (bundle : list (string * value)) (y c r g u : Z) :
  session_ok s0 ->
  (b, bundle, (y, c, r, g, u))
  ∈ [ (BtnBusiness, preset_business, (80, 650, 10, 10, 65)%Z);
      (BtnGreen, preset_green, (80, 380, 5, 70, 30)%Z);
      (BtnUrban, preset_urban, (80, 520, 15, 15, 85)%Z) ] ->
  exists s' out,
    interaction (Some b) s0 = Some (Done s' out) /\
    holds_parameters s' y c r g u /\
    s' !! "mode" = Some (VStr "Standard") /\
    StDataframe (simulate y c r g u) ∈ out.
Proof.
  intros Hok Hb.
  pose proof (script_preset s0 b bundle y c r g u Hb) as Hfirst.
  destruct Hfirst as (Hfirst & Hp & Hm).
  destruct (interaction_cases (Some b) s0 Hok)
    as (s' & out & Hi & _ & [Hdone | (s1 & Hrerun & _ & Hsecond)]);
    [congruence |].
  assert (s1 = update (seed_defaults s0) bundle) as -> by congruence.
  exists s', out. split; [done |].
  apply script_done_inv in Hsecond
    as (s2 & tg & df & fv & dv & tv & boxes & cmp
        & Hmode & _ & Hdf & _ & _ & _ & Hstatus & _ & ->).
  pose proof (holds_parameters_seed_defaults _ _ _ _ _ _ Hp) as Hp'.
  pose proof (lookup_seed_defaults_Some _ _ _ Hm) as Hm'.
  revert Hmode Hdf Hstatus Hp' Hm'.
  generalize (seed_defaults (update (seed_defaults s0) bundle)).
  intros S Hmode Hdf Hstatus Hp' Hm'.
  rewrite (mode_branch_other S "Standard" Hm') in Hmode by done.
  assert (s2 = S) as -> by congruence.
  clear Hmode.
  rewrite (run_simulation_parameters S _ _ _ _ _ Hp') in Hdf.
  assert (df = simulate y c r g u) as -> by congruence.
  destruct Hp' as (Hy & Hc & Hr & Hg & Hu).
  assert (Hframe : forall k, k <> "challenge_won" ->
             s' !! k = S !! k).
  { intros k Hk. replace s' with (s', boxes).1 by done. rewrite <- Hstatus.
    by apply challenge_status_frame. }
  split; [| split].
  - unfold holds_parameters. by rewrite !Hframe.
  - by rewrite Hframe.
  - rewrite !elem_of_app. do 3 right. apply list_elem_of_here.
Qed.

Lemma preset_interaction_witness :
  session_ok kids_session /\
  exists s' out,
    interaction (Some BtnGreen) kids_session = Some (Done s' out) /\
    holds_parameters s' 80 380 5 70 30 /\
    s' !! "mode" = Some (VStr "Standard") /\
    StDataframe (simulate 80 380 5 70 30) ∈ out.
Proof.
  split; [exact session_ok_kids |].
  apply (preset_interaction kids_session BtnGreen preset_green
           80 380 5 70 30 session_ok_kids).
  apply list_elem_of_further, list_elem_of_here.
Defined.

(** ** Seeding and reset *)

Lemma lookup_seed_defaults_other (s : session) (k : string) :
  k ∉ DEFAULTS.*1 -> seed_defaults s !! k = s !! k.
Proof.
  intros Hk. rewrite lookup_seed_defaults.
  destruct (s !! k); [done |]. by apply not_elem_of_list_to_map_1.
Qed.

Lemma lookup_DEFAULTS (k : string) (v : value) :
  (k, v) ∈ DEFAULTS -> (list_to_map DEFAULTS : session) !! k = Some v.
Proof. apply elem_of_list_to_map_1, DEFAULTS_NoDup. Qed.

Lemma reset_to_default_agree (s s' : session) :
  (forall k, k ∉ reset_keys -> s !! k = s' !! k) ->
  reset_to_default s = reset_to_default s'.
Proof.
  intros Hagree. apply map_eq. intros k.
  destruct (decide (k ∈ reset_keys)) as [Hin | Hout].
  - rewrite reset_keys_DEFAULTS in Hin.
    apply list_elem_of_fmap in Hin as ([k' v] & -> & Hin).
    by rewrite !(lookup_reset_to_default _ k' v Hin).
  - rewrite !lookup_reset_to_default_other by done. by apply Hagree.
Qed.

(** X21.  Seeding the defaults (lines 72-74) never overwrites: an entry that
    is there keeps its value, also one whose value is [None] or of the wrong
    type; a default key that is missing gets its default; no other key is
    touched; and seeding an already seeded session changes nothing. *)
Theorem seed_defaults_keeps_and_fills (s : session) :
  (forall k v, s !! k = Some v -> seed_defaults s !! k = Some v) /\
  (forall k v, s !! k = None -> (k, v) ∈ DEFAULTS ->
               seed_defaults s !! k = Some v) /\
  (forall k, k ∉ DEFAULTS.*1 -> seed_defaults s !! k = s !! k) /\
  seed_defaults (seed_defaults s) = seed_defaults s.
Proof.
  split; [| split; [| split]].
  - intros k v Hk. by apply lookup_seed_defaults_Some.
  - intros k v Hk Hin. rewrite lookup_seed_defaults, Hk.
    by apply lookup_DEFAULTS.
  - apply lookup_seed_defaults_other.
  - apply seed_defaults_idemp.
Qed.

Lemma seed_defaults_keeps_and_fills_witness :
  seed_defaults (<["years" := VNone]> ∅) !! "years" = Some VNone /\
  seed_defaults (<["years" := VNone]> ∅) !! "co2_ppm" = Some (VInt 450) /\
  seed_defaults (<["years" := VNone]> ∅) !! "theme" = None.
Proof.
  pose proof (seed_defaults_keeps_and_fills (<["years" := VNone]> ∅))
    as (Hkeep & Hfill & Hother & _).
  split; [| split].
  - apply Hkeep. reflexivity.
  - apply Hfill; [reflexivity |]. unfold DEFAULTS. entry_in.
  - rewrite Hother; [reflexivity |]. simpl. key_notin.
Defined.

(** X22.  The reset handler (lines 113-131) only concerns its twelve keys:
    every other entry of the session survives the reset; the result does not
    depend on what the twelve keys held, or on whether they were there (two
    sessions that agree elsewhere reset to the same session), so the seeding
    before it makes no difference and a second reset changes nothing. *)
Theorem reset_to_default_frame (s : session) :
  (forall k, k ∉ reset_keys -> reset_to_default s !! k = s !! k) /\
  (forall s', (forall k, k ∉ reset_keys -> s !! k = s' !! k) ->
              reset_to_default s = reset_to_default s') /\
  reset_to_default (seed_defaults s) = reset_to_default s /\
  reset_to_default (reset_to_default s) = reset_to_default s.
Proof.
  split; [| split; [| split]].
  - apply lookup_reset_to_default_other.
  - apply reset_to_default_agree.
  - apply reset_to_default_agree. intros k Hk.
    apply lookup_seed_defaults_other. by rewrite <- reset_keys_DEFAULTS.
  - apply reset_to_default_agree. intros k Hk.
    by apply lookup_reset_to_default_other.
Qed.

Lemma reset_to_default_frame_witness :
  reset_to_default (<["theme" := VStr "dark"]> kids_session) !! "theme"
  = Some (VStr "dark") /\
  reset_to_default (<["theme" := VStr "dark"]> kids_session)
  = reset_to_default (<["theme" := VStr "dark"]> ∅).
Proof.
  pose proof (reset_to_default_frame (<["theme" := VStr "dark"]> kids_session))
    as (Hframe & Hagree & _ & _).
  split.
  - rewrite Hframe; [reflexivity |]. unfold reset_keys. key_notin.
  - apply Hagree. intros k Hk.
    destruct (decide (k = "theme")) as [-> | Hne]; [reflexivity |].
    assert (Hk' : k ∉ DEFAULTS.*1) by (by rewrite <- reset_keys_DEFAULTS).
    rewrite !(lookup_insert_ne _ "theme") by done. rewrite lookup_empty.
    unfold kids_session, fresh_session.
    rewrite !lookup_insert_ne.
    + by rewrite lookup_seed_defaults_other.
    + intros <-. apply Hk. unfold reset_keys. entry_in.
    + intros <-. apply Hk. unfold reset_keys. entry_in.
Defined.
